(** * Travel Buddy (server.py): the tool dispatcher, the tool table and the
      session wiring, embedded in Rocq.

    The Python module is embedded shallowly.  Values decoded from JSON are
    an inductive type, Python text is a list of code points, and the
    effects of a coroutine (log lines, the HTTP request, the result
    callback, frames queued on the pipeline task) are written to a trace by
    a small exception-and-trace monad.  What the program asks of the outside
    (the two UUID draws, the clock, what the HTTP exchange does) is passed
    in as arguments. *)

From Stdlib Require Import String Ascii List ZArith NArith Bool Lia Permutation.
Import ListNotations.
Local Open Scope Z_scope.

(* ===================================================================== *)
(** ** Python text *)
(* ===================================================================== *)

(** A Python [str] is a sequence of Unicode code points. *)
Definition pystr := list N.

(** A literal of the source, by the code of each of its characters. *)
Fixpoint py (s : string) : pystr :=
  match s with
  | EmptyString => []
  | String c s' => N_of_ascii c :: py s'
  end.

Definition pystr_eqb (a b : pystr) : bool :=
  if list_eq_dec N.eq_dec a b then true else false.

(** The double quote and the backslash, by code. *)
Definition dquote : N := 34%N.
Definition squote : N := 39%N.
Definition backslash : N := 92%N.

(** [sep.join(parts)] *)
Fixpoint join (sep : pystr) (parts : list pystr) : pystr :=
  match parts with
  | [] => []
  | [p] => p
  | p :: rest => p ++ sep ++ join sep rest
  end.

(** One lower-case hexadecimal digit, as [format(d, "x")] prints it. *)
Definition hex_digit (d : N) : N :=
  (if d <? 10 then 48 + d else 87 + d)%N.

(** [format(n, "0{w}x")]: the [w] low hexadecimal digits of [n], most
    significant first. *)
Fixpoint hex_fixed (w : nat) (n : N) : pystr :=
  match w with
  | O => []
  | S w' => hex_fixed w' (n / 16)%N ++ [hex_digit (n mod 16)%N]
  end.

(** The decimal digits of a natural number: [str(n)] for [n >= 0].  The
    fuel is the number of binary digits, which bounds the decimal ones. *)
Fixpoint dec_digits (fuel : nat) (n : N) : pystr :=
  match fuel with
  | O => []
  | S f =>
      (if n <? 10 then [48 + n]
       else dec_digits f (n / 10) ++ [48 + n mod 10])%N
  end.

Definition str_nat (n : N) : pystr := dec_digits (S (N.to_nat (N.size n))) n.

(** [str(i)] for a Python [int]. *)
Definition str_int (i : Z) : pystr :=
  match i with
  | Zneg p => py "-" ++ str_nat (Npos p)
  | _ => str_nat (Z.to_N i)
  end.

(** [format(n, "0{w}d")] for [n >= 0]: zero-padded on the left to width
    [w], never truncated. *)
Definition dec_padded (w : nat) (n : N) : pystr :=
  let d := str_nat n in
  repeat 48%N (w - length d) ++ d.

(* ===================================================================== *)
(** ** Values decoded from JSON *)
(* ===================================================================== *)

(** What [response.json()] can return, and what the dict literals of the
    source hold.  A [dict] keeps its keys in insertion order, and
    [json.dumps] prints them in that order, so it is an association list;
    the keys of a decoded object are [str].  A [float] is held by its
    [repr], the shortest text that reads back as the same float: [repr] is
    how both [str] and [json.dumps] print a finite float. *)
#[local] Set Warnings "-register-all".
Inductive json : Type :=
| JNone
| JBool (b : bool)
| JInt (i : Z)
| JFloat (repr : pystr)
| JStr (s : pystr)
| JList (l : list json)
| JDict (d : list (pystr * json)).

Definition dict := list (pystr * json).

(** [type(v).__name__] *)
Definition type_name (v : json) : pystr :=
  match v with
  | JNone => py "NoneType"
  | JBool _ => py "bool"
  | JInt _ => py "int"
  | JFloat _ => py "float"
  | JStr _ => py "str"
  | JList _ => py "list"
  | JDict _ => py "dict"
  end.

(** [isinstance(v, dict)] *)
Definition isinstance_dict (v : json) : bool :=
  match v with JDict _ => true | _ => false end.

(** [d.get(k)], [None] when the key is absent; also [k in d]. *)
Fixpoint dict_get (k : pystr) (d : dict) : option json :=
  match d with
  | [] => None
  | (k', v) :: rest => if pystr_eqb k k' then Some v else dict_get k rest
  end.

Definition dict_contains (k : pystr) (d : dict) : bool :=
  match dict_get k d with Some _ => true | None => false end.

(** [bool(v)]: Python's truth value.  [None], [False], zero, and the empty
    string, list and dict are false; a float is false when it is [0.0] or
    [-0.0]. *)
Definition truthy (v : json) : bool :=
  match v with
  | JNone => false
  | JBool b => b
  | JInt i => negb (i =? 0)
  | JFloat r => negb (pystr_eqb r (py "0.0") || pystr_eqb r (py "-0.0"))
  | JStr s => match s with [] => false | _ => true end
  | JList l => match l with [] => false | _ => true end
  | JDict d => match d with [] => false | _ => true end
  end.

(* ===================================================================== *)
(** ** [json.dumps], [repr] and [str] *)
(* ===================================================================== *)

(** One character of a string literal as [json.dumps] writes it with its
    default [ensure_ascii=True]: the two-character escapes, the character
    itself from space to tilde, and a [\uXXXX] escape for everything else
    (a surrogate pair above the basic plane). *)
Definition dumps_char (c : N) : pystr :=
  (if c =? 34 then [backslash; dquote]
   else if c =? 92 then [backslash; backslash]
   else if c =? 10 then backslash :: py "n"
   else if c =? 13 then backslash :: py "r"
   else if c =? 9 then backslash :: py "t"
   else if c =? 12 then backslash :: py "f"
   else if c =? 8 then backslash :: py "b"
   else if (32 <=? c) && (c <=? 126) then [c]
   else if c <? 65536 then backslash :: py "u" ++ hex_fixed 4 c
   else
     let v := c - 65536 in
     let hi := N.lor 55296 (N.land (N.shiftr v 10) 1023) in
     let lo := N.lor 56320 (N.land v 1023) in
     backslash :: py "u" ++ hex_fixed 4 hi ++
     backslash :: py "u" ++ hex_fixed 4 lo)%N.

Definition dumps_str (s : pystr) : pystr :=
  dquote :: flat_map dumps_char s ++ [dquote].

(** A float in JSON text: its [repr], except for the three values that
    [json.dumps] spells its own way. *)
Definition dumps_float (r : pystr) : pystr :=
  if pystr_eqb r (py "nan") then py "NaN"
  else if pystr_eqb r (py "inf") then py "Infinity"
  else if pystr_eqb r (py "-inf") then py "-Infinity"
  else r.

(** [json.dumps(v)] with the default separators [", "] and [": "]. *)
Fixpoint dumps (v : json) : pystr :=
  match v with
  | JNone => py "null"
  | JBool true => py "true"
  | JBool false => py "false"
  | JInt i => str_int i
  | JFloat r => dumps_float r
  | JStr s => dumps_str s
  | JList l => py "[" ++ join (py ", ") (map dumps l) ++ py "]"
  | JDict d =>
      py "{" ++
      join (py ", ")
        (map (fun kv => dumps_str (fst kv) ++ py ": " ++ dumps (snd kv)) d) ++
      py "}"
  end.

Section Repr.

(** [str.isprintable] on one code point above the ASCII range.  It is a
    table of the Unicode database that ships with the interpreter; the
    development is parametric in it. *)
Variable isprintable : N -> bool.

(** One character inside [repr(s)], [q] being the quote chosen for the
    literal. *)
Definition repr_char (q c : N) : pystr :=
  (if (c =? q) || (c =? 92) then [backslash; c]
   else if c =? 9 then backslash :: py "t"
   else if c =? 10 then backslash :: py "n"
   else if c =? 13 then backslash :: py "r"
   else if (c <? 32) || (c =? 127) then backslash :: py "x" ++ hex_fixed 2 c
   else if c <? 127 then [c]
   else if isprintable c then [c]
   else if c <? 256 then backslash :: py "x" ++ hex_fixed 2 c
   else if c <? 65536 then backslash :: py "u" ++ hex_fixed 4 c
   else backslash :: py "U" ++ hex_fixed 8 c)%N.

(** [repr(s)] for a [str]: single quotes, unless the text holds a single
    quote and no double quote. *)
Definition repr_str (s : pystr) : pystr :=
  let has c := existsb (N.eqb c) s in
  let q := if has squote && negb (has dquote) then dquote else squote in
  q :: flat_map (repr_char q) s ++ [q].

(** [repr(v)] *)
Fixpoint py_repr (v : json) : pystr :=
  match v with
  | JNone => py "None"
  | JBool true => py "True"
  | JBool false => py "False"
  | JInt i => str_int i
  | JFloat r => r
  | JStr s => repr_str s
  | JList l => py "[" ++ join (py ", ") (map py_repr l) ++ py "]"
  | JDict d =>
      py "{" ++
      join (py ", ")
        (map (fun kv => repr_str (fst kv) ++ py ": " ++ py_repr (snd kv)) d) ++
      py "}"
  end.

(** [str(v)]: the text itself for a [str], [repr(v)] for the rest. *)
Definition py_str (v : json) : pystr :=
  match v with
  | JStr s => s
  | _ => py_repr v
  end.

End Repr.

(* ===================================================================== *)
(** ** Exceptions, effects and the coroutine monad *)
(* ===================================================================== *)

(** The exception classes that can reach the [try] of the dispatcher: those
    of the HTTP client and of the JSON decoder, those of the Python
    operations on the decoded value, and the ones that derive from
    [BaseException] only. *)
Inductive exn_class : Type :=
| ConnectError
| TimeoutException
| HTTPStatusError
| JSONDecodeError
| TypeError
| AttributeError
| KeyError
| IndexError
| CancelledError
| KeyboardInterrupt.

(** An exception: its class and [str(e)]. *)
Record exn : Type := mkExn { exn_cls : exn_class; exn_text : pystr }.

(** [isinstance(e, Exception)]: what [except Exception] catches. *)
Definition is_Exception (e : exn) : bool :=
  match exn_cls e with
  | CancelledError | KeyboardInterrupt => false
  | _ => true
  end.

Inductive level : Type := INFO | ERROR.

(** The HTTP request handed to [client.post], with the timeout of the
    client that sends it (in seconds). *)
Record request : Type := mkRequest {
  rq_url : pystr;
  rq_json : json;
  rq_headers : list (pystr * pystr);
  rq_timeout : Z
}.

(** The frames the module builds, and any other frame of the framework by
    the name of its class. *)
Inductive frame : Type :=
| TTSSpeakFrame (text : pystr)
| EndFrame
| OtherFrame (cls : string).

(** What a coroutine of the module does to the outside, in order. *)
Inductive event : Type :=
| Log (lv : level) (msg : pystr)
| Post (rq : request)
| ResultCallback (v : json)
| QueueFrames (fs : list frame).

Inductive outcome (A : Type) : Type :=
| Returned (a : A)
| Raised (e : exn).
Arguments Returned {A} a.
Arguments Raised {A} e.

(** A coroutine run to its end: the trace it left and how it ended. *)
Definition M (A : Type) : Type := (list event * outcome A)%type.

Definition ret {A} (a : A) : M A := ([], Returned a).

Definition raise {A} (e : exn) : M A := ([], Raised e).

Definition bind {A B} (m : M A) (k : A -> M B) : M B :=
  match m with
  | (t, Returned a) => let (t', r) := k a in (t ++ t', r)
  | (t, Raised e) => (t, Raised e)
  end.

Definition emit (ev : event) : M unit := ([ev], Returned tt).

(** [try: m  except Exception as e: h e] *)
Definition try_except {A} (m : M A) (h : exn -> M A) : M A :=
  match m with
  | (t, Raised e) =>
      if is_Exception e then let (t', r) := h e in (t ++ t', r)
      else (t, Raised e)
  | _ => m
  end.

Declare Scope py_scope.
Delimit Scope py_scope with py.
Notation "x <- m ;; k" := (bind m (fun x => k))
  (at level 61, m at next level, right associativity) : py_scope.
Notation "m ;; k" := (bind m (fun _ => k))
  (at level 61, right associativity) : py_scope.
Local Open Scope py_scope.

Definition trace {A} (m : M A) : list event := fst m.
Definition result {A} (m : M A) : outcome A := snd m.

(** [len(v)] *)
Definition py_len (v : json) : M nat :=
  match v with
  | JStr s => ret (length s)
  | JList l => ret (length l)
  | JDict d => ret (length d)
  | _ => raise (mkExn TypeError
                  (py "object of type '" ++ type_name v ++ py "' has no len()"))
  end.

(** [v[0]].  The keys of a decoded object are text, so the integer key is
    never found in a dict. *)
Definition py_item0 (v : json) : M json :=
  match v with
  | JList (x :: _) => ret x
  | JList [] => raise (mkExn IndexError (py "list index out of range"))
  | JStr (c :: _) => ret (JStr [c])
  | JStr [] => raise (mkExn IndexError (py "string index out of range"))
  | JDict _ => raise (mkExn KeyError (py "0"))
  | _ => raise (mkExn TypeError
                  (py "'" ++ type_name v ++ py "' object is not subscriptable"))
  end.

(** [v.get(k, default)] *)
Definition py_get (v : json) (k : pystr) (default : json) : M json :=
  match v with
  | JDict d => ret (match dict_get k d with Some x => x | None => default end)
  | _ => raise (mkExn AttributeError
                  (py "'" ++ type_name v ++ py "' object has no attribute 'get'"))
  end.

(* ===================================================================== *)
(** ** The HTTP exchange and the UUID draws *)
(* ===================================================================== *)

(** What came back from the webhook: whether [raise_for_status()] raises,
    and what [json()] gives. *)
Record response : Type := mkResponse {
  status_error : option exn;
  body : exn + json
}.

(** What [await client.post(...)] does: it raises, or returns a response. *)
Inductive exchange : Type :=
| PostRaises (e : exn)
| PostReturns (r : response).

Definition client_post (rq : request) (net : exchange) : M response :=
  emit (Post rq) ;;
  match net with
  | PostRaises e => raise e
  | PostReturns r => ret r
  end.

Definition raise_for_status (r : response) : M unit :=
  match status_error r with
  | Some e => raise e
  | None => ret tt
  end.

Definition response_json (r : response) : M json :=
  match body r with
  | inl e => raise e
  | inr v => ret v
  end.

(** A UUID is its 128-bit integer. *)
Definition uuid := N.

(** A version-4 UUID: below [2^128], version nibble 4, variant bits 10. *)
Definition is_uuid4 (u : uuid) : bool :=
  ((u <? 2 ^ 128) && (N.land (N.shiftr u 76) 15 =? 4) &&
   (N.land (N.shiftr u 62) 3 =? 2))%N.

(** [u.hex]: 32 hexadecimal digits. *)
Definition uuid_hex (u : uuid) : pystr := hex_fixed 32 u.

(* ===================================================================== *)
(** ** The module *)
(* ===================================================================== *)

(** [datetime.now()] *)
Record datetime : Type := mkDatetime {
  year : N; month : N; day : N;
  hour : N; minute : N; second : N
}.

(** [now.strftime("%Y-%m-%d")] *)
Definition strftime_Ymd (now : datetime) : pystr :=
  dec_padded 4 (year now) ++ py "-" ++
  dec_padded 2 (month now) ++ py "-" ++
  dec_padded 2 (day now).

(** What one run of a coroutine gets from the outside: the clock, the two
    [uuid.uuid4()] draws of a webhook call in the order they are made, and
    the HTTP exchange. *)
Record world : Type := mkWorld {
  now : datetime;
  uuid_1 : uuid;
  uuid_2 : uuid;
  net : exchange
}.

(** [FunctionCallParams]: the arguments of the call.  Its
    [result_callback] is the [ResultCallback] effect. *)
Record FunctionCallParams : Type := mkParams { arguments : dict }.

Definition result_callback (v : json) : M unit := emit (ResultCallback v).

Definition logger_info (msg : pystr) : M unit := emit (Log INFO msg).
Definition logger_error (msg : pystr) : M unit := emit (Log ERROR msg).

Definition str (x : string) : json := JStr (py x).

Definition VAPI_WEBHOOK_URL : pystr :=
  py "https://vapi-voice-agent.cfapps.eu10-004.hana.ondemand.com/vapi/webhook".

(** *** Travel tool definitions (OpenAI function calling) *)

(** A property of a parameter schema: its type, and its description when
    the source gives one. *)
Definition prop (ty : string) : json := JDict [(py "type", str ty)].
Definition prop_d (ty description : string) : json :=
  JDict [(py "type", str ty); (py "description", str description)].

Definition strs (l : list string) : json := JList (map str l).

Definition TRAVEL_TOOLS : list json := [
  JDict [
    (py "type", str "function");
    (py "function", JDict [
      (py "name", str "get_current_date");
      (py "description",
       str "Get the current date. Call this for relative date calculations.");
      (py "parameters", JDict [
        (py "type", str "object");
        (py "properties", JDict []);
        (py "required", strs [])])])];
  JDict [
    (py "type", str "function");
    (py "function", JDict [
      (py "name", str "search_flights");
      (py "description",
       str "Search for available flights between two locations on a specific date.");
      (py "parameters", JDict [
        (py "type", str "object");
        (py "properties", JDict [
          (py "origin", prop_d "string" "Origin city or airport code");
          (py "destination", prop_d "string" "Destination city or airport code");
          (py "departure_date", prop_d "string" "Departure date YYYY-MM-DD")]);
        (py "required", strs ["origin"; "destination"; "departure_date"]%string)])])];
  JDict [
    (py "type", str "function");
    (py "function", JDict [
      (py "name", str "book_flight");
      (py "description",
       str "Book a selected flight. Only call after user explicitly confirms.");
      (py "parameters", JDict [
        (py "type", str "object");
        (py "properties", JDict [
          (py "journey_id", prop "string");
          (py "offer_id", prop "string");
          (py "carrier_name", prop "string");
          (py "origin", prop "string");
          (py "destination", prop "string");
          (py "departure_time", prop "string");
          (py "arrival_time", prop "string");
          (py "price_amount", prop "number");
          (py "currency_code", prop "string");
          (py "cabin_class", prop "string");
          (py "passenger_name", prop "string")]);
        (py "required",
         strs ["journey_id"; "offer_id"; "carrier_name"; "origin";
               "destination"; "departure_time"; "arrival_time";
               "price_amount"; "currency_code"; "cabin_class"]%string)])])];
  JDict [
    (py "type", str "function");
    (py "function", JDict [
      (py "name", str "search_hotels");
      (py "description",
       str "Search for available hotels in a destination city.");
      (py "parameters", JDict [
        (py "type", str "object");
        (py "properties", JDict [
          (py "destination", prop "string");
          (py "check_in_date", prop_d "string" "YYYY-MM-DD");
          (py "check_out_date", prop_d "string" "YYYY-MM-DD")]);
        (py "required",
         strs ["destination"; "check_in_date"; "check_out_date"]%string)])])];
  JDict [
    (py "type", str "function");
    (py "function", JDict [
      (py "name", str "book_hotel");
      (py "description",
       str "Book a selected hotel. Only call after user explicitly confirms.");
      (py "parameters", JDict [
        (py "type", str "object");
        (py "properties", JDict [
          (py "hotel_name", prop "string");
          (py "hotel_address", prop "string");
          (py "city", prop "string");
          (py "check_in_date", prop "string");
          (py "check_out_date", prop "string");
          (py "room_type", prop "string");
          (py "price_per_night", prop "number");
          (py "total_price", prop "number");
          (py "currency_code", prop "string");
          (py "guest_name", prop "string");
          (py "star_rating", prop "number")]);
        (py "required",
         strs ["hotel_name"; "hotel_address"; "city"; "check_in_date";
               "check_out_date"; "room_type"; "price_per_night";
               "total_price"; "currency_code"]%string)])])]
].

(** [tool["function"]["name"]] and
    [tool["function"]["parameters"]["required"]], [None] off the shape. *)
Definition tool_name (tool : json) : option json :=
  match tool with
  | JDict t =>
      match dict_get (py "function") t with
      | Some (JDict f) => dict_get (py "name") f
      | _ => None
      end
  | _ => None
  end.

Definition tool_parameters (tool : json) : option dict :=
  match tool with
  | JDict t =>
      match dict_get (py "function") t with
      | Some (JDict f) =>
          match dict_get (py "parameters") f with
          | Some (JDict p) => Some p
          | _ => None
          end
      | _ => None
      end
  | _ => None
  end.

Definition tool_required (tool : json) : option json :=
  match tool_parameters tool with
  | Some p => dict_get (py "required") p
  | None => None
  end.

Definition tool_properties (tool : json) : option json :=
  match tool_parameters tool with
  | Some p => dict_get (py "properties") p
  | None => None
  end.

(** The tool of a given name in a table: the first one. *)
Definition find_tool (name : string) (tools : list json) : option json :=
  find (fun t => match tool_name t with
                 | Some (JStr n) => pystr_eqb n (py name)
                 | _ => false
                 end) tools.

Definition newline : N := 10%N.

(** [get_system_prompt()], the clock passed in.  A quoted phrase of the
    prompt is written with [quoted]. *)
Definition quoted (x : string) : pystr := dquote :: py x ++ [dquote].

Definition get_system_prompt (now : datetime) : pystr :=
  let today := strftime_Ymd now in
  let this_year := str_int (Z.of_N (year now)) in
  let next_year := str_int (Z.of_N (year now) + 1) in
  join [newline] [
    py "You are Travel Buddy, a friendly and helpful travel assistant in a voice call.";
    py "Today's date is " ++ today ++ py ".";
    [];
    py "You help users:";
    py "1. Search for flights between cities";
    py "2. Book flights";
    py "3. Search for hotels";
    py "4. Book hotels";
    [];
    py "IMPORTANT GUIDELINES:";
    py "- Today is " ++ today ++
      py ". When users mention dates without a year, ALWAYS use the current or next occurrence of that date. For example, " ++
      quoted "March 23" ++ py " means " ++ this_year ++
      py "-03-23 if it hasn't passed yet, otherwise " ++ next_year ++
      py "-03-23.";
    py "- When users mention relative dates like " ++ quoted "next week" ++
      py ", " ++ quoted "tomorrow" ++ py ", " ++ quoted "in 3 days" ++
      py ", calculate the actual date based on today (" ++ today ++ py ")";
    py "- Always confirm details before booking (flight selection, hotel choice)";
    py "- Present search results clearly and concisely - mention 2-3 best options";
    py "- For flights, mention: airline, departure time, arrival time, and price";
    py "- For hotels, mention: hotel name, star rating, and price per night";
    py "- Keep responses brief and conversational - this is a voice call, not text";
    py "- Never use markdown, lists, bullet points, or formatting";
    py "- If a search returns no results, suggest alternatives";
    py "- Ask for confirmation before booking anything";
    py "- IMPORTANT: Before calling any search or booking function, ALWAYS say a brief phrase like " ++
      quoted "Let me search for that, one moment" ++ py " or " ++
      quoted "Sure, let me look that up for you" ++
      py " so the user knows you're working on it and waits. The API calls take a few seconds.";
    py "- ALWAYS respond in English, regardless of what language the user's message appears to be in.";
    []].

Definition WELCOME_MESSAGE : pystr :=
  py "Hey there! I'm Travel Buddy, your personal travel assistant. " ++
  py "I can help you search and book flights and hotels. " ++
  py "Where would you like to go?".

(** *** What [run_bot] builds *)

(** A constructor call of [run_bot]: the class and its keyword arguments.
    The values are literals, a read of the environment, a path under the
    module's directory, the websocket the session was given, or another
    constructor call. *)
Inductive cfg : Type :=
| CBool (b : bool)
| CInt (i : Z)
| CStr (s : string)
| CGetenv (name : string)
| CPath (file : string)
| CWebsocket
| CNew (cls : string) (kwargs : list (string * cfg)).

(** Every keyword name in a constructor call, nested calls included. *)
Fixpoint kwarg_names (c : cfg) : list string :=
  match c with
  | CNew _ kwargs =>
      flat_map (fun kv => fst kv :: kwarg_names (snd kv)) kwargs
  | _ => []
  end.

(** [sub in s] for two literals. *)
Definition contains (sub s : string) : bool :=
  match index 0 sub s with Some _ => true | None => false end.

(** The processors of the pipeline, in the order [Pipeline([...])] lists
    them. *)
Inductive stage : Type :=
| TransportInput
| STT
| ContextUser
| LLM
| TTS
| TransportOutput
| ContextAssistant.

(** [OpenAILLMContext(messages=..., tools=...)] *)
Record OpenAILLMContext : Type := mkContext {
  messages : list json;
  tools : list json
}.

Section Server.

(** The Unicode table behind [repr] (see [repr_char]). *)
Variable isprintable : N -> bool.

(** The bearer token is a constant of the module; the development is
    parametric in its text. *)
Variable VAPI_AUTH_TOKEN : pystr.

(** How an f-string prints the [arguments] of a call: [str] of the dict,
    or of [None]. *)
Definition format_arguments (a : option dict) : pystr :=
  match a with
  | Some d => py_str isprintable (JDict d)
  | None => py "None"
  end.

(** [arguments or {}] *)
Definition arguments_or_empty (a : option dict) : dict :=
  match a with
  | Some (kv :: d) => kv :: d
  | _ => []
  end.

Definition tool_call_id_of (function_name : pystr) (u : uuid) : pystr :=
  function_name ++ py "-" ++ firstn 8 (uuid_hex u).

Definition call_id_of (u : uuid) : pystr :=
  py "call-" ++ firstn 8 (uuid_hex u).

Definition payload_of (tool_call_id function_name : pystr)
    (arguments : option dict) (call_id : pystr) : json :=
  JDict [
    (py "message", JDict [
      (py "type", str "tool-calls");
      (py "toolCallList", JList [JDict [
        (py "id", JStr tool_call_id);
        (py "function", JDict [
          (py "name", JStr function_name);
          (py "arguments", JDict (arguments_or_empty arguments))])]])]);
    (py "call", JDict [(py "id", JStr call_id)])].

(** Lines 75 to 83 of [call_vapi_webhook]: the value returned for a
    decoded response.  The operations on the value raise as Python's do;
    the [try] around them is in [call_vapi_webhook]. *)
Definition select_result (result : json) : M json :=
  match result with
  | JDict d =>
      let otherwise : M json :=
        match dict_get (py "result") d with
        | Some r => ret r
        | None => ret (JStr (dumps result))
        end in
      match dict_get (py "results") d with
      | Some results =>
          n <- py_len results ;;
          if (0 <? n)%nat then
            first <- py_item0 results ;;
            tool_result <- py_get first (py "result") (str "") ;;
            ret (if truthy tool_result then tool_result
                 else JStr (dumps first))
          else otherwise
      | None => otherwise
      end
  | _ => ret (JStr (py_str isprintable result))
  end.

(** The request of one call: the client is built with [timeout=30.0]. *)
Definition webhook_request (payload : json) : request :=
  mkRequest VAPI_WEBHOOK_URL payload
    [(py "Authorization", py "Bearer " ++ VAPI_AUTH_TOKEN);
     (py "Content-Type", py "application/json")]
    30.

(** The [except Exception as e] block. *)
Definition on_exception (e : exn) : M json :=
  logger_error (py "[TOOL] Error: " ++ exn_text e) ;;
  ret (JStr (py "Error calling travel service: " ++ exn_text e)).

Definition call_vapi_webhook (function_name : pystr)
    (arguments : option dict) (w : world) : M json :=
  let tool_call_id := tool_call_id_of function_name (uuid_1 w) in
  let call_id := call_id_of (uuid_2 w) in
  logger_info (py "[TOOL] Calling " ++ function_name ++ py " with " ++
               format_arguments arguments) ;;
  let payload :=
    payload_of tool_call_id function_name arguments call_id in
  try_except
    (response <- client_post (webhook_request payload) (net w) ;;
     raise_for_status response ;;
     result <- response_json response ;;
     logger_info (py "[TOOL] Response: " ++ firstn 500 (dumps result)) ;;
     select_result result)
    on_exception.

(** *** Tool handlers *)

Definition handle_get_current_date (params : FunctionCallParams)
    (w : world) : M unit :=
  let result := strftime_Ymd (now w) in
  logger_info (py "[FUNCTION] get_current_date -> " ++ result) ;;
  result_callback (JStr result).

Definition handle_search_flights (params : FunctionCallParams)
    (w : world) : M unit :=
  let args := arguments params in
  logger_info (py "[FUNCTION] search_flights(" ++
               py_str isprintable (JDict args) ++ py ")") ;;
  result <- call_vapi_webhook (py "search_flights") (Some args) w ;;
  result_callback result.

Definition handle_book_flight (params : FunctionCallParams)
    (w : world) : M unit :=
  let args := arguments params in
  logger_info (py "[FUNCTION] book_flight(" ++
               py_str isprintable (JDict args) ++ py ")") ;;
  result <- call_vapi_webhook (py "book_flight") (Some args) w ;;
  result_callback result.

Definition handle_search_hotels (params : FunctionCallParams)
    (w : world) : M unit :=
  let args := arguments params in
  logger_info (py "[FUNCTION] search_hotels(" ++
               py_str isprintable (JDict args) ++ py ")") ;;
  result <- call_vapi_webhook (py "search_hotels") (Some args) w ;;
  result_callback result.

Definition handle_book_hotel (params : FunctionCallParams)
    (w : world) : M unit :=
  let args := arguments params in
  logger_info (py "[FUNCTION] book_hotel(" ++
               py_str isprintable (JDict args) ++ py ")") ;;
  result <- call_vapi_webhook (py "book_hotel") (Some args) w ;;
  result_callback result.

(** *** Bot pipeline *)

(** One [llm.register_function(name, handler, ...)] call.  The keyword
    is [None] when the call does not pass it and leaves the flag to the
    default of the framework. *)
Record registration : Type := mkRegistration {
  function_name : pystr;
  handler : FunctionCallParams -> world -> M unit;
  cancel_on_interruption : option bool
}.

(** The registry is keyed by name: a later registration of a name
    replaces the earlier one. *)
Definition register_function (registry : list registration)
    (name : string) (h : FunctionCallParams -> world -> M unit)
    (cancel : option bool) : list registration :=
  filter (fun r => negb (pystr_eqb (function_name r) (py name))) registry
  ++ [mkRegistration (py name) h cancel].

Definition registered (registry : list registration) (name : string)
  : option registration :=
  find (fun r => pystr_eqb (function_name r) (py name)) registry.

(** What [run_bot] has built when it hands the task to the runner. *)
Record session : Type := mkSession {
  transport : cfg;
  stt : cfg;
  llm : cfg;
  functions : list registration;
  tts : cfg;
  context : OpenAILLMContext;
  pipeline : list stage;
  task : cfg;
  on_client_connected : M unit;
  on_client_disconnected : M unit
}.

Definition run_bot (clock : datetime) : session :=
  let transport :=
    (CNew "FastAPIWebsocketTransport" [
      ("websocket", CWebsocket);
      ("params", CNew "FastAPIWebsocketParams" [
        ("audio_in_enabled", CBool true);
        ("audio_out_enabled", CBool true);
        ("add_wav_header", CBool false);
        ("vad_enabled", CBool true);
        ("vad_analyzer", CNew "SileroVADAnalyzer" []);
        ("vad_audio_passthrough", CBool true);
        ("serializer", CNew "ProtobufFrameSerializer" []);
        ("audio_in_sample_rate", CInt 16000);
        ("audio_out_sample_rate", CInt 24000)])])%string in
  let stt :=
    (CNew "OpenAISTTService" [
      ("api_key", CGetenv "OPENAI_API_KEY");
      ("model", CStr "gpt-4o-transcribe");
      ("language", CStr "en")])%string in
  let llm :=
    (CNew "OpenAILLMService" [
      ("api_key", CGetenv "OPENAI_API_KEY");
      ("model", CStr "gpt-4o-mini")])%string in
  let fns := [] in
  let fns :=
    register_function fns "get_current_date" handle_get_current_date None in
  let fns :=
    register_function fns "search_flights" handle_search_flights
      (Some false) in
  let fns :=
    register_function fns "book_flight" handle_book_flight (Some false) in
  let fns :=
    register_function fns "search_hotels" handle_search_hotels
      (Some false) in
  let fns :=
    register_function fns "book_hotel" handle_book_hotel (Some false) in
  let tts :=
    (CNew "KokoroTTSService" [
      ("voice_id", CStr "af_heart");
      ("model_path", CPath "kokoro-v1.0.int8.onnx");
      ("voices_path", CPath "voices-v1.0.bin");
      ("sample_rate", CInt 24000)])%string in
  let messages :=
    [JDict [(py "role", str "system");
            (py "content", JStr (get_system_prompt clock))]] in
  let context := mkContext messages TRAVEL_TOOLS in
  let pipeline :=
    [TransportInput; STT; ContextUser; LLM; TTS; TransportOutput;
     ContextAssistant] in
  let task :=
    (CNew "PipelineTask" [
      ("params", CNew "PipelineParams" [
        ("allow_interruptions", CBool true);
        ("enable_metrics", CBool true);
        ("enable_usage_metrics", CBool true)])])%string in
  mkSession transport stt llm fns tts context pipeline task
    (logger_info (py "Client connected") ;;
     emit (QueueFrames [TTSSpeakFrame WELCOME_MESSAGE]))
    (logger_info (py "Client disconnected") ;;
     emit (QueueFrames [EndFrame])).

End Server.

(* ===================================================================== *)
(** ** What the specification says, in its own words *)
(* ===================================================================== *)

(** [v[k]] when [v] is a mapping that has the key. *)
Definition field_of (v : json) (k : pystr) : option json :=
  match v with JDict f => dict_get k f | _ => None end.

(** The precedence of the specification (section 4.6) for a response that
    is a mapping, written from its words: (a) a non-empty "results"
    sequence gives the "result" field of its first element when the field
    is present and non-empty, else the serialization of that element; (b)
    else a "result" field is used verbatim; (c) else the whole response is
    serialized.  Non-empty is read as Python's truth value. *)
Definition spec_select (d : dict) : json :=
  match dict_get (py "results") d with
  | Some (JList (first :: _)) =>
      match field_of first (py "result") with
      | Some r => if truthy r then r else JStr (dumps first)
      | None => JStr (dumps first)
      end
  | _ =>
      match dict_get (py "result") d with
      | Some r => r
      | None => JStr (dumps (JDict d))
      end
  end.

(** The responses on which the code follows that precedence: "results" is
    absent, or has length zero, or is a list whose first element is a
    mapping. *)
Definition results_shape_ok (d : dict) : bool :=
  match dict_get (py "results") d with
  | None => true
  | Some (JList []) | Some (JStr []) | Some (JDict []) => true
  | Some (JList (JDict _ :: _)) => true
  | Some _ => false
  end.

(** How the HTTP exchange ends, seen from the [try]: the first exception
    among [post], [raise_for_status] and [json], or the decoded value. *)
Definition exchange_outcome (x : exchange) : outcome json :=
  match x with
  | PostRaises e => Raised e
  | PostReturns r =>
      match status_error r with
      | Some e => Raised e
      | None => match body r with inl e => Raised e | inr v => Returned v end
      end
  end.

(** The failures of the specification's taxonomy (section 7, ToolError):
    transport, timeout, HTTP status and parse. *)
Definition is_tool_error (e : exn) : bool :=
  match exn_cls e with
  | ConnectError | TimeoutException | HTTPStatusError | JSONDecodeError => true
  | _ => false
  end.

Definition error_text (e : exn) : json :=
  JStr (py "Error calling travel service: " ++ exn_text e).

(** [s.startswith(prefix)] *)
Fixpoint startswith (prefix s : pystr) : bool :=
  match prefix, s with
  | [], _ => true
  | p :: prefix', c :: s' => (p =? c)%N && startswith prefix' s'
  | _ :: _, [] => false
  end.

Definition is_callback (ev : event) : bool :=
  match ev with ResultCallback _ => true | _ => false end.

Definition is_post (ev : event) : bool :=
  match ev with Post _ => true | _ => false end.

(** The values the result callback was given, in order. *)
Definition callbacks (t : list event) : list json :=
  flat_map (fun ev => match ev with ResultCallback v => [v] | _ => [] end) t.

(** The requests sent, in order. *)
Definition posts (t : list event) : list request :=
  flat_map (fun ev => match ev with Post rq => [rq] | _ => [] end) t.

(** A world whose webhook answers 200 with the given JSON value. *)
Definition answering (v : json) : world :=
  mkWorld (mkDatetime 2024 3 10 9 30 0)
    0x1b4e28ba2fa1411d883f00913c7a4f01%N
    0x9c5b94b1a35f4c7ab1d2e0f3a4b5c6d7%N
    (PostReturns (mkResponse None (inr v))).

(** A table for the closed examples: Latin-1 as Unicode has it, nothing
    above.  The examples hold ASCII text only. *)
Definition latin1_isprintable (c : N) : bool :=
  ((160 <? c) && (c <? 256) && negb (c =? 173))%N.

Definition example_token : pystr := py "token".

(** The flag a registration ends up with, given the default that
    [register_function] has for its keyword in the framework. *)
Definition cancelled_on_interruption (framework_default : bool)
    (r : registration) : bool :=
  match cancel_on_interruption r with
  | Some b => b
  | None => framework_default
  end.

(** The five names of the tool schema, as the specification lists them. *)
Definition tool_names : list string :=
  ["get_current_date"; "search_flights"; "search_hotels"; "book_flight";
   "book_hotel"]%string.

(** The keyword a registered name carries, [None] also when the name is
    not registered. *)
Definition registered_cancel (registry : list registration)
    (name : string) : option bool :=
  match registered registry name with
  | Some r => cancel_on_interruption r
  | None => None
  end.

(** The names and keywords of a registry, in order. *)
Definition registry_flags (registry : list registration)
  : list (pystr * option bool) :=
  map (fun r => (function_name r, cancel_on_interruption r)) registry.

(** Every keyword that [run_bot] passes to a constructor of the
    framework, nested calls included. *)
Definition session_kwargs (s : session) : list string :=
  flat_map kwarg_names [transport s; stt s; llm s; tts s; task s].

(** The request the specification describes (section 6): the message with
    its one tool call, the call identifier, the bearer token, and the
    timeout of section 4.6. *)
Definition spec_request (token tool_call_id name : pystr) (args : dict)
    (call_id : pystr) : request :=
  {| rq_url := VAPI_WEBHOOK_URL;
     rq_json :=
       JDict [
         (py "message", JDict [
           (py "type", str "tool-calls");
           (py "toolCallList", JList [JDict [
             (py "id", JStr tool_call_id);
             (py "function", JDict [
               (py "name", JStr name);
               (py "arguments", JDict args)])]])]);
         (py "call", JDict [(py "id", JStr call_id)])];
     rq_headers :=
       [(py "Authorization", py "Bearer " ++ token);
        (py "Content-Type", py "application/json")];
     rq_timeout := 30 |}.

(** The required arguments of the tool of a given name in the table. *)
Definition required_of (name : string) : option json :=
  match find_tool name TRAVEL_TOOLS with
  | Some t => tool_required t
  | None => None
  end.

(** Every required argument of a tool is one of its declared properties. *)
Definition required_declared (tool : json) : bool :=
  match tool_required tool, tool_properties tool with
  | Some (JList names), Some (JDict props) =>
      forallb (fun n => match n with
                        | JStr k => dict_contains k props
                        | _ => false
                        end) names
  | _, _ => false
  end.

(** A clock and a world for the closed examples. *)
Definition example_clock : datetime := mkDatetime 2024 3 10 9 30 0.

Definition timing_out : world :=
  mkWorld example_clock
    0x1b4e28ba2fa1411d883f00913c7a4f01%N
    0x9c5b94b1a35f4c7ab1d2e0f3a4b5c6d7%N
    (PostRaises (mkExn TimeoutException (py "The read operation timed out"))).

(** The value of a decimal digit. *)
Definition digit_value (c : N) : option N :=
  (if (48 <=? c) && (c <=? 57) then Some (c - 48) else None)%N.

(** A date read back from a text of the form YYYY-MM-DD: four digits, a
    hyphen, two digits, a hyphen, two digits. *)
Definition parse_Ymd (s : pystr) : option (N * N * N) :=
  match s with
  | [y1; y2; y3; y4; h1; m1; m2; h2; d1; d2] =>
      match digit_value y1, digit_value y2, digit_value y3, digit_value y4,
            digit_value m1, digit_value m2, digit_value d1, digit_value d2
      with
      | Some a, Some b, Some c, Some d, Some e, Some f, Some g, Some h =>
          if ((h1 =? 45) && (h2 =? 45))%N
          then Some (1000 * a + 100 * b + 10 * c + d, 10 * e + f, 10 * g + h)%N
          else None
      | _, _, _, _, _, _, _, _ => None
      end
  | _ => None
  end.

(** *** The pipeline of the framework, as far as the greeting needs it *)

(** What a processor does besides passing frames on. *)
Inductive activity : Type :=
| Inference
| Synthesis (text : pystr)
| AudioOut.

(** A processor of the framework: the frames it sends downstream for a
    frame it receives, and what it does meanwhile.  The processors are the
    framework's; the development is parametric in them. *)
Definition processors := stage -> frame -> list frame * list activity.

(** A frame pushed into a chain of processors goes through them in order,
    each handing what it emits to the next. *)
Fixpoint push (process : processors) (stages : list stage) (f : frame)
  : list activity :=
  match stages with
  | [] => []
  | s :: rest =>
      let (out, acts) := process s f in
      acts ++ flat_map (push process rest) out
  end.

(** The frames a trace queued on the pipeline task, in order. *)
Definition queued (t : list event) : list frame :=
  flat_map (fun ev => match ev with QueueFrames fs => fs | _ => [] end) t.

(** What the pipeline does with the frames a handler queued. *)
Definition run_queued (process : processors) (stages : list stage)
    (t : list event) : list activity :=
  flat_map (push process stages) (queued t).

(** The contract of the framework's processors that the greeting relies
    on: a [TTSSpeakFrame] goes untouched through the processors before
    the synthesizer; the synthesizer speaks its text; and no processor but
    the LLM service runs an inference. *)
Definition forwards_speech (process : processors) : Prop :=
  forall s text,
    In s [TransportInput; STT; ContextUser; LLM] ->
    process s (TTSSpeakFrame text) = ([TTSSpeakFrame text], []).

Definition synthesizes_speech (process : processors) : Prop :=
  forall text, exists out,
    process TTS (TTSSpeakFrame text) = (out, [Synthesis text]).

Definition only_llm_infers (process : processors) : Prop :=
  forall s f, s <> LLM -> ~ In Inference (snd (process s f)).

(** Processors for the closed example: the synthesizer turns speech into
    audio, the output transport plays audio, the LLM service runs an
    inference on a context frame, and everything else is passed on. *)
Definition example_processors : processors :=
  fun s f =>
    match s, f with
    | TTS, TTSSpeakFrame text =>
        ([OtherFrame "TTSAudioRawFrame"], [Synthesis text])
    | TransportOutput, OtherFrame cls =>
        if String.eqb cls "TTSAudioRawFrame" then ([], [AudioOut])
        else ([f], [])
    | LLM, OtherFrame cls =>
        if String.eqb cls "OpenAILLMContextFrame"
        then ([OtherFrame "LLMTextFrame"], [Inference])
        else ([f], [])
    | _, _ => ([f], [])
    end.

(** *** Further notions for the properties of the dispatcher *)

(** [results[0]] for the two sequence types whose first item exists. *)
Definition first_item (results : json) : option json :=
  match results with
  | JList (x :: _) => Some x
  | JStr (c :: _) => Some (JStr [c])
  | _ => None
  end.

(** The values that have no length: [None], booleans and numbers. *)
Definition has_no_len (v : json) : bool :=
  match v with
  | JNone | JBool _ | JInt _ | JFloat _ => true
  | _ => false
  end.

Definition is_text (v : json) : bool :=
  match v with JStr _ => true | _ => false end.

(** The messages logged at ERROR level, in order. *)
Definition error_logs (t : list event) : list pystr :=
  flat_map (fun ev => match ev with Log ERROR msg => [msg] | _ => [] end) t.

(** The value of a hexadecimal digit, and of a text of such digits. *)
Definition hex_value (c : N) : N :=
  (if c <? 58 then c - 48 else c - 87)%N.

Definition parse_hex (s : pystr) : N :=
  fold_left (fun acc c => (16 * acc + hex_value c)%N) s 0%N.

Definition is_hex_digit (c : N) : bool :=
  ((48 <=? c) && (c <=? 57) || (97 <=? c) && (c <=? 102))%N.

(** A webhook that answers with a decoded value, any clock and draws. *)
Definition answers (w : world) (v : json) : Prop :=
  exchange_outcome (net w) = Returned v.

(** A world whose exchange is cancelled while the request is awaited. *)
Definition cancelled : world :=
  mkWorld example_clock
    0x1b4e28ba2fa1411d883f00913c7a4f01%N
    0x9c5b94b1a35f4c7ab1d2e0f3a4b5c6d7%N
    (PostRaises (mkExn CancelledError (py ""))).

(** *** Interruption and the framework's own timeouts *)

(** What an interruption of the turn does to a running tool call is the
    framework's doing: [interrupt r w] is the outside a handler registered
    as [r] runs against when its turn is interrupted and the outside was
    [w] otherwise.  The contract the code relies on (comment on line 290):
    a call registered with [cancel_on_interruption=False] is left alone. *)
Definition spares_non_cancellable
    (interrupt : registration -> world -> world) : Prop :=
  forall r w, cancel_on_interruption r = Some false -> interrupt r w = w.

(** An interruption that cancels every call it is allowed to cancel: the
    awaited exchange of a call not registered with
    [cancel_on_interruption=False] raises [CancelledError]. *)
Definition example_interrupt (r : registration) (w : world) : world :=
  match cancel_on_interruption r with
  | Some false => w
  | _ => mkWorld (now w) (uuid_1 w) (uuid_2 w)
           (PostRaises (mkExn CancelledError (py "")))
  end.



(* ===================================================================== *)
(** ** The printers on small inputs *)
(* ===================================================================== *)

Lemma pystr_eqb_eq a b : pystr_eqb a b = true <-> a = b.
Proof.
  unfold pystr_eqb. destruct (list_eq_dec N.eq_dec a b); split; congruence.
Qed.

Lemma pystr_eqb_refl a : pystr_eqb a a = true.
Proof. now apply pystr_eqb_eq. Qed.

Example str_int_2024 : str_int 2024 = py "2024".
Proof. reflexivity. Qed.

Example str_int_neg : str_int (-305) = py "-305".
Proof. reflexivity. Qed.

Example hex_fixed_example : hex_fixed 4 233 = py "00e9".
Proof. reflexivity. Qed.

Example dumps_foo :
  dumps (JDict [(py "foo", JInt 1)]) = py "{" ++ dquote :: py "foo" ++ dquote :: py ": 1}".
Proof. reflexivity. Qed.

Example repr_list (t : N -> bool) :
  py_str t (JList [JNone; JBool true; JStr (py "a'b")]) =
  py "[None, True, " ++ dquote :: py "a'b" ++ dquote :: py "]".
Proof. reflexivity. Qed.

(* ===================================================================== *)
(** ** The coroutine monad: traces and results *)
(* ===================================================================== *)

Lemma result_bind {A B} (m : M A) (k : A -> M B) :
  result (bind m k) =
  match result m with
  | Returned a => result (k a)
  | Raised e => Raised e
  end.
Proof.
  destruct m as [t [a | e]]; cbn; [destruct (k a) |]; reflexivity.
Qed.

Lemma trace_bind {A B} (m : M A) (k : A -> M B) :
  trace (bind m k) =
  trace m ++ match result m with
             | Returned a => trace (k a)
             | Raised _ => []
             end.
Proof.
  destruct m as [t [a | e]]; cbn; [destruct (k a) | rewrite app_nil_r];
    reflexivity.
Qed.

Lemma result_try {A} (m : M A) (h : exn -> M A) :
  result (try_except m h) =
  match result m with
  | Returned a => Returned a
  | Raised e => if is_Exception e then result (h e) else Raised e
  end.
Proof.
  destruct m as [t [a | e]]; cbn; [reflexivity |].
  destruct (is_Exception e); [destruct (h e) |]; reflexivity.
Qed.

Lemma trace_try {A} (m : M A) (h : exn -> M A) :
  trace (try_except m h) =
  trace m ++ match result m with
             | Returned _ => []
             | Raised e => if is_Exception e then trace (h e) else []
             end.
Proof.
  destruct m as [t [a | e]]; cbn; [now rewrite app_nil_r |].
  destruct (is_Exception e); [destruct (h e) | rewrite app_nil_r];
    reflexivity.
Qed.

Lemma result_ret {A} (a : A) : result (ret a) = Returned a.
Proof. reflexivity. Qed.

Lemma result_raise {A} (e : exn) : result (@raise A e) = Raised e.
Proof. reflexivity. Qed.

Lemma result_emit ev : result (emit ev) = Returned tt.
Proof. reflexivity. Qed.

Lemma trace_ret {A} (a : A) : trace (ret a) = [].
Proof. reflexivity. Qed.

Lemma trace_raise {A} (e : exn) : trace (@raise A e) = [].
Proof. reflexivity. Qed.

Lemma trace_emit ev : trace (emit ev) = [ev].
Proof. reflexivity. Qed.

Create Rewrite HintDb coroutine.
#[local] Hint Rewrite @result_bind @result_try @result_ret @result_raise
  result_emit @trace_bind @trace_try @trace_ret @trace_raise trace_emit
  : coroutine.

(** Push [result] and [trace] through the monad's operations, reducing the
    matches that become decided on the way. *)
Ltac run_coroutine :=
  repeat (progress (autorewrite with coroutine;
                    cbn [net status_error body uuid_1 uuid_2 now])).

Lemma callbacks_app t1 t2 : callbacks (t1 ++ t2) = callbacks t1 ++ callbacks t2.
Proof. apply flat_map_app. Qed.

Lemma posts_app t1 t2 : posts (t1 ++ t2) = posts t1 ++ posts t2.
Proof. apply flat_map_app. Qed.

(* ===================================================================== *)
(** ** The dispatcher *)
(* ===================================================================== *)

Section Dispatcher.

Variable isprintable : N -> bool.
Variable VAPI_AUTH_TOKEN : pystr.

Local Abbreviation call := (call_vapi_webhook isprintable VAPI_AUTH_TOKEN).
Local Abbreviation select := (select_result isprintable).

(** Inspecting the decoded value does nothing to the outside. *)
Lemma trace_select v : trace (select v) = [].
Proof.
  destruct v as [| | | | | |d]; try reflexivity.
  unfold select_result.
  destruct (dict_get (py "results") d) as [rs|];
    [| destruct (dict_get (py "result") d); reflexivity].
  destruct rs as [| | | |[|c s]|[|x l]|[|kv d']]; try reflexivity;
    cbn -[dict_get py dumps truthy];
    try (destruct (dict_get (py "result") d); reflexivity).
  destruct x; reflexivity.
Qed.

(** On a well-shaped mapping the inspection returns what the
    specification's precedence selects. *)
Lemma select_follows_spec d :
  results_shape_ok d = true ->
  result (select (JDict d)) = Returned (spec_select d).
Proof.
  unfold results_shape_ok, spec_select, select_result.
  destruct (dict_get (py "results") d) as [rs|];
    [| intros _; destruct (dict_get (py "result") d); reflexivity].
  destruct rs as [| | | |[|c s]|[|x l]|[|kv d']]; try discriminate;
    try (intros _; cbn -[dict_get py dumps truthy];
         destruct (dict_get (py "result") d); reflexivity).
  destruct x as [| | | | | |f]; try discriminate. intros _.
  cbn -[dict_get py dumps truthy].
  destruct (dict_get (py "result") f) as [r|]; reflexivity.
Qed.

(** The result of a call, by how the exchange ends: an [Exception] from
    the exchange or from the inspection becomes the error text, anything
    else that derives from [BaseException] only goes through. *)
Lemma call_result fn a w :
  result (call fn a w) =
  match exchange_outcome (net w) with
  | Raised e => if is_Exception e then Returned (error_text e) else Raised e
  | Returned v =>
      match result (select v) with
      | Returned r => Returned r
      | Raised e =>
          if is_Exception e then Returned (error_text e) else Raised e
      end
  end.
Proof.
  unfold call_vapi_webhook, client_post, raise_for_status, response_json,
    exchange_outcome, on_exception, logger_info, logger_error, error_text.
  cbv zeta.
  destruct w as [nw u1 u2 [e | [[e|] [e'|v]]]];
    cbn [net status_error body]; run_coroutine; reflexivity.
Qed.

End Dispatcher.

(* ===================================================================== *)
(** ** Response parsing and failures *)
(* ===================================================================== *)

Lemma tool_error_is_Exception e : is_tool_error e = true -> is_Exception e = true.
Proof.
  unfold is_tool_error, is_Exception. destruct (exn_cls e); congruence.
Qed.

Lemma dumps_char_nonempty c : (1 <= length (dumps_char c))%nat.
Proof.
  unfold dumps_char.
  repeat match goal with
         | |- context [if ?b then _ else _] => destruct b
         end; cbn; lia.
Qed.

Lemma dumps_str_longer s : (length s < length (dumps_str s))%nat.
Proof.
  unfold dumps_str. cbn [length]. rewrite length_app. cbn [length].
  enough (length s <= length (flat_map dumps_char s))%nat by lia.
  induction s as [|c s IH]; [reflexivity |].
  cbn [flat_map length]. rewrite length_app.
  pose proof (dumps_char_nonempty c). lia.
Qed.

Section Parsing.

Variable isprintable : N -> bool.
Variable VAPI_AUTH_TOKEN : pystr.

Local Abbreviation call := (call_vapi_webhook isprintable VAPI_AUTH_TOKEN).

(** A call raises past the dispatcher only what is not an [Exception]. *)
Lemma call_raises_only_base_exceptions fn a w e :
  result (call fn a w) = Raised e -> is_Exception e = false.
Proof.
  rewrite call_result.
  destruct (exchange_outcome (net w)) as [v | e0].
  - destruct (result (select_result isprintable v)) as [r | e1];
      [discriminate |].
    destruct (is_Exception e1) eqn:E; [discriminate |].
    now intros [= <-].
  - destruct (is_Exception e0) eqn:E; [discriminate |].
    now intros [= <-].
Qed.

(** C1 (amended).  When the webhook answers with a mapping whose
    "results" entry is absent, or has length zero, or is a list whose
    first element is a mapping, [call_vapi_webhook] returns what the
    precedence of the specification selects: the first element's
    "result" field when present and true in Python's sense, else the
    JSON text of that element; else the "result" field of the mapping
    verbatim; else the JSON text of the whole mapping. *)
Theorem precedence_on_shaped_responses fn a w d :
  exchange_outcome (net w) = Returned (JDict d) ->
  results_shape_ok d = true ->
  result (call fn a w) = Returned (spec_select d).
Proof.
  intros Hnet Hshape.
  rewrite call_result, Hnet, (select_follows_spec _ _ Hshape).
  reflexivity.
Qed.

(** C2.  A transport, timeout, HTTP-status or parse failure of the
    exchange does not leave [call_vapi_webhook] as an exception: the
    call returns the text "Error calling travel service: " followed by
    the exception's message. *)
Theorem failures_become_error_text fn a w e :
  exchange_outcome (net w) = Raised e ->
  is_tool_error e = true ->
  result (call fn a w) =
    Returned (JStr (py "Error calling travel service: " ++ exn_text e)).
Proof.
  intros Hnet Herr.
  rewrite call_result, Hnet, (tool_error_is_Exception _ Herr).
  reflexivity.
Qed.

(** C10.  When the decoded response is not a mapping, the call returns
    [str] of the value; for [None], a boolean or a string that text is
    not the JSON serialization of the value. *)
Theorem non_mapping_response_is_str fn a w v :
  exchange_outcome (net w) = Returned v ->
  isinstance_dict v = false ->
  result (call fn a w) = Returned (JStr (py_str isprintable v)) /\
  (match v with JNone | JBool _ | JStr _ => True | _ => False end ->
   py_str isprintable v <> dumps v).
Proof.
  intros Hnet Hdict. split.
  - rewrite call_result, Hnet.
    destruct v; try discriminate; reflexivity.
  - destruct v as [|[]| | |s| |]; try contradiction; intros _;
      try discriminate.
    cbn [py_str dumps]. intros E.
    pose proof (dumps_str_longer s) as L. rewrite <- E in L. lia.
Qed.

End Parsing.

(** The three responses the specification lists: they select "ok", "x" and
    the JSON text of the mapping. *)
Lemma precedence_on_shaped_responses_witness :
  let call := call_vapi_webhook latin1_isprintable example_token
                (py "search_flights") (Some []) in
  result (call (answering
            (JDict [(py "results", JList [JDict [(py "result", str "ok")]])])))
    = Returned (str "ok") /\
  result (call (answering (JDict [(py "result", str "x")])))
    = Returned (str "x") /\
  result (call (answering (JDict [(py "foo", JInt 1)])))
    = Returned (JStr (py "{" ++ dquote :: py "foo" ++ dquote :: py ": 1}")).
Proof.
  cbv zeta. split; [| split].
  - apply (precedence_on_shaped_responses latin1_isprintable example_token
             (py "search_flights") (Some [])
             (answering
                (JDict [(py "results", JList [JDict [(py "result", str "ok")]])]))
             [(py "results", JList [JDict [(py "result", str "ok")]])]);
      reflexivity.
  - apply (precedence_on_shaped_responses latin1_isprintable example_token
             (py "search_flights") (Some [])
             (answering (JDict [(py "result", str "x")]))
             [(py "result", str "x")]);
      reflexivity.
  - apply (precedence_on_shaped_responses latin1_isprintable example_token
             (py "search_flights") (Some [])
             (answering (JDict [(py "foo", JInt 1)]))
             [(py "foo", JInt 1)]);
      reflexivity.
Defined.

(** The precedence as the specification words it fails on a "results" list
    whose first element is not a mapping: for [{"results": [1]}] the
    element has no "result" field, the specification selects its JSON text
    "1", and the code returns the text of the [AttributeError] that
    [.get] raised on the integer. *)
Lemma precedence_fails_on_scalar_element :
  let d := [(py "results", JList [JInt 1])] in
  let r := result (call_vapi_webhook latin1_isprintable example_token
                     (py "search_flights") (Some []) (answering (JDict d))) in
  spec_select d = str "1" /\
  r = Returned
        (str "Error calling travel service: 'int' object has no attribute 'get'") /\
  r <> Returned (spec_select d).
Proof.
  cbv zeta. split; [reflexivity | split; [reflexivity | discriminate]].
Qed.

(** A read timeout of the HTTP client. *)
Lemma failures_become_error_text_witness :
  let e := mkExn TimeoutException (py "The read operation timed out") in
  let w := mkWorld (mkDatetime 2024 3 10 9 30 0) 7%N 8%N (PostRaises e) in
  exchange_outcome (net w) = Raised e /\
  is_tool_error e = true /\
  result (call_vapi_webhook latin1_isprintable example_token
            (py "book_hotel") None w) =
    Returned
      (str "Error calling travel service: The read operation timed out").
Proof.
  cbv zeta. split; [reflexivity | split; [reflexivity |]].
  apply (failures_become_error_text latin1_isprintable example_token
           (py "book_hotel") None
           (mkWorld (mkDatetime 2024 3 10 9 30 0) 7%N 8%N
              (PostRaises
                 (mkExn TimeoutException (py "The read operation timed out"))))
           (mkExn TimeoutException (py "The read operation timed out")));
    reflexivity.
Defined.

(** A list answer: [str] writes [None] where JSON writes [null]. *)
Lemma non_mapping_response_is_str_witness :
  let v := JList [JNone; str "a"] in
  exchange_outcome (net (answering v)) = Returned v /\
  isinstance_dict v = false /\
  result (call_vapi_webhook latin1_isprintable example_token
            (py "search_hotels") (Some []) (answering v)) =
    Returned (str "[None, 'a']").
Proof.
  cbv zeta. split; [reflexivity | split; [reflexivity |]].
  apply (non_mapping_response_is_str latin1_isprintable example_token
           (py "search_hotels") (Some []) (answering (JList [JNone; str "a"]))
           (JList [JNone; str "a"])); reflexivity.
Defined.

(* ===================================================================== *)
(** ** The request and the trace of a call *)
(* ===================================================================== *)

Lemma length_hex_fixed w n : length (hex_fixed w n) = w.
Proof.
  revert n. induction w as [|w IH]; intros n; [reflexivity |].
  cbn [hex_fixed]. rewrite length_app, IH. cbn. lia.
Qed.

(** The leading [w] digits of a longer print are the print of the number
    without its [k] low digits. *)
Lemma firstn_hex_fixed w k n :
  firstn w (hex_fixed (w + k) n) = hex_fixed w (n / 16 ^ N.of_nat k)%N.
Proof.
  revert n. induction k as [|k IH]; intros n.
  - rewrite Nat.add_0_r. cbn [N.of_nat]. rewrite N.pow_0_r, N.div_1_r.
    rewrite <- (length_hex_fixed w n) at 1. apply firstn_all.
  - rewrite Nat.add_succ_r. cbn [hex_fixed].
    rewrite firstn_app, length_hex_fixed.
    replace (w - (w + k))%nat with 0%nat by lia.
    cbn [firstn]. rewrite app_nil_r, IH.
    rewrite Nat2N.inj_succ, N.pow_succ_r', N.Div0.div_div.
    reflexivity.
Qed.

(** [u.hex[:8]] prints the leading 32 bits of the UUID. *)
Lemma uuid_hex_prefix u : firstn 8 (uuid_hex u) = hex_fixed 8 (u / 2 ^ 96)%N.
Proof.
  unfold uuid_hex. change 32%nat with (8 + 24)%nat.
  rewrite firstn_hex_fixed. reflexivity.
Qed.

Lemma arguments_or_empty_spec a :
  arguments_or_empty a = match a with Some d => d | None => [] end.
Proof. destruct a as [[|kv d]|]; reflexivity. Qed.

Section Trace.

Variable isprintable : N -> bool.
Variable VAPI_AUTH_TOKEN : pystr.

Local Abbreviation call := (call_vapi_webhook isprintable VAPI_AUTH_TOKEN).
Local Abbreviation select := (select_result isprintable).

(** The inspection raises [Exception]s only. *)
Lemma select_raises_Exception v e :
  result (select v) = Raised e -> is_Exception e = true.
Proof.
  destruct v as [| | | | | |d]; try discriminate.
  unfold select_result.
  destruct (dict_get (py "results") d) as [rs|];
    [| destruct (dict_get (py "result") d); discriminate].
  destruct rs as [| | | |[|c s]|[|x l]|[|kv d']];
    cbn -[dict_get py dumps truthy];
    try (destruct (dict_get (py "result") d); discriminate);
    try (intros [= <-]; reflexivity).
  destruct x; cbn -[dict_get py dumps truthy];
    try discriminate; intros [= <-]; reflexivity.
Qed.

(** What a call does to the outside: the line that announces it, one
    request, and then a line for the response, for the error, or both
    when the inspection of the response raised. *)
Lemma call_trace fn a w :
  trace (call fn a w) =
  Log INFO (py "[TOOL] Calling " ++ fn ++ py " with " ++
            format_arguments isprintable a) ::
  Post (webhook_request VAPI_AUTH_TOKEN
          (payload_of (tool_call_id_of fn (uuid_1 w)) fn a
             (call_id_of (uuid_2 w)))) ::
  match exchange_outcome (net w) with
  | Raised e =>
      if is_Exception e
      then [Log ERROR (py "[TOOL] Error: " ++ exn_text e)] else []
  | Returned v =>
      Log INFO (py "[TOOL] Response: " ++ firstn 500 (dumps v)) ::
      match result (select v) with
      | Returned _ => []
      | Raised e => [Log ERROR (py "[TOOL] Error: " ++ exn_text e)]
      end
  end.
Proof.
  unfold call_vapi_webhook, client_post, raise_for_status, response_json,
    exchange_outcome, on_exception, logger_info, logger_error.
  cbv zeta.
  destruct w as [nw u1 u2 [e | [[e|] [e'|v]]]];
    cbn [net status_error body uuid_1 uuid_2]; run_coroutine;
    try (destruct (is_Exception _); reflexivity).
  rewrite trace_select.
  destruct (result (select v)) as [r | e] eqn:E; [reflexivity |].
  rewrite (select_raises_Exception _ _ E). reflexivity.
Qed.

Lemma call_posts fn a w :
  posts (trace (call fn a w)) =
  [webhook_request VAPI_AUTH_TOKEN
     (payload_of (tool_call_id_of fn (uuid_1 w)) fn a
        (call_id_of (uuid_2 w)))].
Proof.
  rewrite call_trace. cbn [posts flat_map app]. f_equal.
  destruct (exchange_outcome (net w)) as [v | e].
  - destruct (result (select v)); reflexivity.
  - destruct (is_Exception e); reflexivity.
Qed.

Lemma call_callbacks fn a w : callbacks (trace (call fn a w)) = [].
Proof.
  rewrite call_trace. cbn [callbacks flat_map app].
  destruct (exchange_outcome (net w)) as [v | e].
  - destruct (result (select v)); reflexivity.
  - destruct (is_Exception e); reflexivity.
Qed.

End Trace.


(* ===================================================================== *)
(** ** Tool handlers and their registration *)
(* ===================================================================== *)

Section Handlers.

Variable isprintable : N -> bool.
Variable VAPI_AUTH_TOKEN : pystr.

Local Abbreviation call := (call_vapi_webhook isprintable VAPI_AUTH_TOKEN).
Local Abbreviation bot := (run_bot isprintable VAPI_AUTH_TOKEN).

(** The registry [run_bot] leaves on the LLM service, in the order of the
    five [register_function] calls. *)
Lemma run_bot_functions clock :
  functions (bot clock) =
  [mkRegistration (py "get_current_date") handle_get_current_date None;
   mkRegistration (py "search_flights")
     (handle_search_flights isprintable VAPI_AUTH_TOKEN) (Some false);
   mkRegistration (py "book_flight")
     (handle_book_flight isprintable VAPI_AUTH_TOKEN) (Some false);
   mkRegistration (py "search_hotels")
     (handle_search_hotels isprintable VAPI_AUTH_TOKEN) (Some false);
   mkRegistration (py "book_hotel")
     (handle_book_hotel isprintable VAPI_AUTH_TOKEN) (Some false)].
Proof. reflexivity. Qed.

(** A handler that logs, awaits the webhook and hands the value to the
    callback: what it leaves on the trace and how it ends. *)
Lemma webhook_handler_run (line : pystr) fn a w :
  let m := (logger_info line ;;
            result <- call fn a w ;;
            result_callback result)%py in
  callbacks (trace m) =
    match result (call fn a w) with
    | Returned v => [v]
    | Raised _ => []
    end /\
  result m =
    match result (call fn a w) with
    | Returned _ => Returned tt
    | Raised e => Raised e
    end /\
  posts (trace m) = posts (trace (call fn a w)).
Proof.
  cbv zeta. unfold logger_info, result_callback. run_coroutine.
  rewrite !callbacks_app, !posts_app, call_callbacks.
  destruct (result (call fn a w)) as [v | e]; run_coroutine;
    cbn [callbacks posts flat_map app]; rewrite ?app_nil_r; auto.
Qed.

(** A call returns when the exchange raises nothing but [Exception]s. *)
Lemma call_returns fn a w :
  (forall e, exchange_outcome (net w) = Raised e -> is_Exception e = true) ->
  exists v, result (call fn a w) = Returned v.
Proof.
  intros H. rewrite call_result.
  destruct (exchange_outcome (net w)) as [v | e].
  - destruct (result (select_result isprintable v)) as [r | e] eqn:E;
      [now exists r |].
    rewrite (select_raises_Exception _ _ _ E). now eexists.
  - rewrite (H e eq_refl). now eexists.
Qed.

(** Each of the five registered handlers, run on any arguments and
    against any exchange that raises nothing but [Exception]s (success,
    transport, timeout, status and parse failures alike), invokes the
    result callback exactly once and returns. *)
Theorem each_handler_calls_back_once clock r params w :
  In r (functions (bot clock)) ->
  (forall e, exchange_outcome (net w) = Raised e -> is_Exception e = true) ->
  (exists v, callbacks (trace (handler r params w)) = [v]) /\
  result (handler r params w) = Returned tt.
Proof.
  intros Hin Hexn. rewrite run_bot_functions in Hin.
  destruct (call_returns (function_name r) (Some (arguments params)) w Hexn)
    as [v Hv].
  cbn [In] in Hin.
  destruct Hin as [<- | [<- | [<- | [<- | [<- | []]]]]]; cbn [handler];
    cbn [function_name] in Hv.
  - split; [eexists |]; reflexivity.
  - destruct (webhook_handler_run
                (py "[FUNCTION] search_flights(" ++
                 py_str isprintable (JDict (arguments params)) ++ py ")")
                (py "search_flights") (Some (arguments params)) w)
      as (Hc & Hr & _).
    unfold handle_search_flights. cbv zeta.
    rewrite Hc, Hr, Hv. split; [eexists |]; reflexivity.
  - destruct (webhook_handler_run
                (py "[FUNCTION] book_flight(" ++
                 py_str isprintable (JDict (arguments params)) ++ py ")")
                (py "book_flight") (Some (arguments params)) w)
      as (Hc & Hr & _).
    unfold handle_book_flight. cbv zeta.
    rewrite Hc, Hr, Hv. split; [eexists |]; reflexivity.
  - destruct (webhook_handler_run
                (py "[FUNCTION] search_hotels(" ++
                 py_str isprintable (JDict (arguments params)) ++ py ")")
                (py "search_hotels") (Some (arguments params)) w)
      as (Hc & Hr & _).
    unfold handle_search_hotels. cbv zeta.
    rewrite Hc, Hr, Hv. split; [eexists |]; reflexivity.
  - destruct (webhook_handler_run
                (py "[FUNCTION] book_hotel(" ++
                 py_str isprintable (JDict (arguments params)) ++ py ")")
                (py "book_hotel") (Some (arguments params)) w)
      as (Hc & Hr & _).
    unfold handle_book_hotel. cbv zeta.
    rewrite Hc, Hr, Hv. split; [eexists |]; reflexivity.
Qed.

(** Every call of the dispatcher sends exactly one request, through a
    client built with a timeout of 30 seconds whatever the function, the
    arguments and the outside are; and no constructor call of [run_bot]
    passes a keyword that names a timeout. *)
Theorem webhook_timeout_is_30_seconds fn a w clock :
  map rq_timeout (posts (trace (call fn a w))) = [30] /\
  forallb (fun k => negb (contains "timeout" k)) (session_kwargs (bot clock))
    = true.
Proof.
  split; [rewrite call_posts |]; reflexivity.
Qed.

(** C7 (amended).  A call sends one request of the shape the specification
    gives, with the function name, the arguments (the empty mapping when
    they are [None]) and the bearer token; its two identifiers are the
    function name, respectively "call", a hyphen and the eight
    hexadecimal digits of the leading 32 bits of a UUID drawn for that
    identifier alone. *)
Theorem webhook_request_shape fn a w :
  posts (trace (call fn a w)) =
  [spec_request VAPI_AUTH_TOKEN
     (fn ++ py "-" ++ hex_fixed 8 (uuid_1 w / 2 ^ 96)%N)
     fn
     (match a with Some d => d | None => [] end)
     (py "call-" ++ hex_fixed 8 (uuid_2 w / 2 ^ 96)%N)].
Proof.
  rewrite call_posts.
  unfold webhook_request, payload_of, spec_request, tool_call_id_of,
    call_id_of.
  rewrite !uuid_hex_prefix, arguments_or_empty_spec. reflexivity.
Qed.

End Handlers.

(** A search whose exchange times out: the callback still gets one value,
    the error text. *)
Lemma each_handler_calls_back_once_witness :
  let r := mkRegistration (py "search_flights")
             (handle_search_flights latin1_isprintable example_token)
             (Some false) in
  let params := mkParams [(py "origin", str "LIS")] in
  In r (functions (run_bot latin1_isprintable example_token example_clock)) /\
  (forall e, exchange_outcome (net timing_out) = Raised e ->
             is_Exception e = true) /\
  (exists v, callbacks (trace (handler r params timing_out)) = [v]) /\
  result (handler r params timing_out) = Returned tt.
Proof.
  cbv zeta.
  assert (Hin : In (mkRegistration (py "search_flights")
                      (handle_search_flights latin1_isprintable example_token)
                      (Some false))
                  (functions
                     (run_bot latin1_isprintable example_token example_clock)))
    by (right; left; reflexivity).
  assert (Hexn : forall e, exchange_outcome (net timing_out) = Raised e ->
                           is_Exception e = true)
    by (intros e [= <-]; reflexivity).
  split; [exact Hin | split; [exact Hexn |]].
  exact (each_handler_calls_back_once latin1_isprintable example_token
           example_clock _ (mkParams [(py "origin", str "LIS")]) timing_out
           Hin Hexn).
Defined.

(** Two calls whose UUID draws are four different version-4 UUIDs, and
    which send the same two identifiers: the draws agree on their first
    eight hexadecimal digits, the only ones the identifiers keep. *)
Lemma correlation_ids_collide :
  let u1 := 0x1b4e28ba2fa1411d883f00913c7a4f01%N in
  let u2 := 0x9c5b94b1a35f4c7ab1d2e0f3a4b5c6d7%N in
  let u1' := 0x1b4e28ba5c0d4e2f9a1b3c4d5e6f7081%N in
  let u2' := 0x9c5b94b10f1e4d3c8b2a495867768594%N in
  let call := call_vapi_webhook latin1_isprintable example_token
                (py "book_flight") (Some []) in
  let net := PostReturns (mkResponse None (inr (JDict []))) in
  forallb is_uuid4 [u1; u2; u1'; u2'] = true /\
  NoDup [u1; u2; u1'; u2'] /\
  posts (trace (call (mkWorld example_clock u1 u2 net))) =
  posts (trace (call (mkWorld example_clock u1' u2' net))).
Proof.
  cbv zeta. split; [reflexivity | split; [| reflexivity]].
  repeat constructor; cbn [In]; intuition discriminate.
Qed.

(* ===================================================================== *)
(** ** Registration flags and the tool table *)
(* ===================================================================== *)

(** C3 (amended).  The four tools that go to the webhook (search_flights,
    book_flight, search_hotels, book_hotel) are registered with
    [cancel_on_interruption=False] and so are never cancelled by an
    interruption; get_current_date is registered without the keyword, and
    takes whatever default the framework gives it. *)
Theorem webhook_tools_registered_non_cancellable
    (isprintable : N -> bool) (token : pystr) (clock : datetime)
    (framework_default : bool) :
  registry_flags (functions (run_bot isprintable token clock)) =
    [(py "get_current_date", None);
     (py "search_flights", Some false);
     (py "book_flight", Some false);
     (py "search_hotels", Some false);
     (py "book_hotel", Some false)] /\
  map (cancelled_on_interruption framework_default)
      (functions (run_bot isprintable token clock)) =
    [framework_default; false; false; false; false].
Proof. split; reflexivity. Qed.

(** Not all five registrations carry [cancel_on_interruption=False]: the
    one of get_current_date carries no keyword. *)
Lemma get_current_date_registered_without_flag :
  ~ (forall name, In name tool_names ->
       registered_cancel
         (functions (run_bot latin1_isprintable example_token example_clock))
         name = Some false).
Proof.
  intros H.
  specialize (H "get_current_date"%string (or_introl eq_refl)).
  discriminate H.
Qed.

(** C4.  The table holds five tools, named as the specification names
    them, each with its list of required arguments, all of them declared
    properties; and it is the table every session's context is built
    with, whatever the clock and the constants of the module. *)
Theorem tool_schema_table
    (isprintable : N -> bool) (token : pystr) (clock : datetime) :
  map tool_name TRAVEL_TOOLS =
    map (fun n => Some (str n))
      ["get_current_date"; "search_flights"; "book_flight"; "search_hotels";
       "book_hotel"]%string /\
  Permutation (map tool_name TRAVEL_TOOLS)
    (map (fun n => Some (str n)) tool_names) /\
  required_of "get_current_date" = Some (strs []) /\
  required_of "search_flights" =
    Some (strs ["origin"; "destination"; "departure_date"]%string) /\
  required_of "search_hotels" =
    Some (strs ["destination"; "check_in_date"; "check_out_date"]%string) /\
  required_of "book_flight" =
    Some (strs ["journey_id"; "offer_id"; "carrier_name"; "origin";
                "destination"; "departure_time"; "arrival_time";
                "price_amount"; "currency_code"; "cabin_class"]%string) /\
  required_of "book_hotel" =
    Some (strs ["hotel_name"; "hotel_address"; "city"; "check_in_date";
                "check_out_date"; "room_type"; "price_per_night";
                "total_price"; "currency_code"]%string) /\
  forallb required_declared TRAVEL_TOOLS = true /\
  tools (context (run_bot isprintable token clock)) = TRAVEL_TOOLS.
Proof.
  split; [reflexivity |].
  split; [apply perm_skip, perm_skip, perm_swap |].
  repeat (split; [reflexivity |]). reflexivity.
Qed.

(* ===================================================================== *)
(** ** The current date *)
(* ===================================================================== *)

Ltac Zify.zify_post_hook ::= Z.to_euclidean_division_equations.

Lemma size_lower n k : (2 ^ k <= n)%N -> (k < N.size n)%N.
Proof.
  intros H. pose proof (N.size_gt n) as G.
  apply (N.pow_lt_mono_r_iff 2); lia.
Qed.

Lemma dec_digits_1 f n : (n < 10)%N -> dec_digits (S f) n = [(48 + n)%N].
Proof.
  intros H. cbn [dec_digits]. now apply N.ltb_lt in H as ->.
Qed.

Lemma dec_digits_step f n :
  (10 <= n)%N ->
  dec_digits (S f) n = dec_digits f (n / 10)%N ++ [(48 + n mod 10)%N].
Proof.
  intros H. cbn [dec_digits]. now apply N.ltb_ge in H as ->.
Qed.

Lemma str_nat_1 n : (n < 10)%N -> str_nat n = [48 + n]%N.
Proof. intros H. unfold str_nat. now apply dec_digits_1. Qed.

Lemma str_nat_2 n :
  (10 <= n < 100)%N -> str_nat n = [48 + n / 10; 48 + n mod 10]%N.
Proof.
  intros H. unfold str_nat.
  assert (0 < N.size n)%N by (apply size_lower; cbn; lia).
  destruct (N.to_nat (N.size n)) as [|f] eqn:E; try lia.
  rewrite dec_digits_step by lia.
  rewrite dec_digits_1 by lia. reflexivity.
Qed.

Lemma str_nat_4 n :
  (1000 <= n < 10000)%N ->
  str_nat n = [48 + n / 1000; 48 + n / 100 mod 10; 48 + n / 10 mod 10;
               48 + n mod 10]%N.
Proof.
  intros H. unfold str_nat.
  assert (3 < N.size n)%N by (apply size_lower; cbn; lia).
  destruct (N.to_nat (N.size n)) as [|[|[|f]]] eqn:E; try lia.
  rewrite 3 dec_digits_step by lia.
  rewrite dec_digits_1 by lia. cbn [app].
  rewrite !N.Div0.div_div. reflexivity.
Qed.

Lemma dec_padded_2 n :
  (n < 100)%N -> dec_padded 2 n = [48 + n / 10; 48 + n mod 10]%N.
Proof.
  intros H. unfold dec_padded.
  destruct (N.lt_ge_cases n 10) as [L | G].
  - rewrite str_nat_1 by assumption. cbn [length Nat.sub repeat app].
    rewrite N.div_small, N.mod_small by assumption. reflexivity.
  - rewrite str_nat_2 by lia. reflexivity.
Qed.

Lemma dec_padded_4 n :
  (1000 <= n < 10000)%N ->
  dec_padded 4 n = [48 + n / 1000; 48 + n / 100 mod 10; 48 + n / 10 mod 10;
                    48 + n mod 10]%N.
Proof.
  intros H. unfold dec_padded. rewrite str_nat_4 by assumption. reflexivity.
Qed.

Lemma digit_value_digit d : (d < 10)%N -> digit_value (48 + d) = Some d.
Proof.
  intros H. unfold digit_value.
  replace (48 <=? 48 + d)%N with true by (symmetry; apply N.leb_le; lia).
  replace (48 + d <=? 57)%N with true by (symmetry; apply N.leb_le; lia).
  cbn [andb]. f_equal. lia.
Qed.

(** The text [strftime] writes reads back as the date it was given. *)
Lemma parse_strftime dt :
  (1000 <= year dt < 10000)%N -> (month dt < 100)%N -> (day dt < 100)%N ->
  parse_Ymd (strftime_Ymd dt) = Some (year dt, month dt, day dt).
Proof.
  intros Hy Hm Hd. unfold strftime_Ymd.
  rewrite dec_padded_4, !dec_padded_2 by assumption.
  change (py "-") with [45%N]. cbn [app parse_Ymd].
  rewrite !digit_value_digit by lia.
  cbn [N.eqb Pos.eqb andb].
  assert (E1 : (year dt / 100 = year dt / 10 / 10)%N)
    by now rewrite N.Div0.div_div.
  assert (E2 : (year dt / 1000 = year dt / 10 / 10 / 10)%N)
    by now rewrite !N.Div0.div_div.
  rewrite E1, E2. repeat f_equal; lia.
Qed.

(** C8.  For a clock reading a date of a four-digit year, the handler of
    get_current_date sends nothing to the webhook and invokes the result
    callback exactly once, with a text of the form YYYY-MM-DD that reads
    back as the year, month and day of the clock, unchanged. *)
Theorem get_current_date_returns_today params w :
  (1000 <= year (now w) <= 9999)%N ->
  (1 <= month (now w) <= 12)%N ->
  (1 <= day (now w) <= 31)%N ->
  callbacks (trace (handle_get_current_date params w)) =
    [JStr (strftime_Ymd (now w))] /\
  posts (trace (handle_get_current_date params w)) = [] /\
  result (handle_get_current_date params w) = Returned tt /\
  parse_Ymd (strftime_Ymd (now w)) =
    Some (year (now w), month (now w), day (now w)).
Proof.
  intros Hy Hm Hd.
  split; [reflexivity | split; [reflexivity | split; [reflexivity |]]].
  apply parse_strftime; lia.
Qed.

(** The day of the specification's example. *)
Lemma get_current_date_returns_today_witness :
  let w := mkWorld (mkDatetime 2024 3 10 9 30 0) 7%N 8%N
             (PostRaises (mkExn ConnectError (py "unreachable"))) in
  let params := mkParams [] in
  callbacks (trace (handle_get_current_date params w)) = [str "2024-03-10"] /\
  parse_Ymd (py "2024-03-10") = Some (2024, 3, 10)%N.
Proof.
  cbv zeta.
  destruct (get_current_date_returns_today (mkParams [])
              (mkWorld (mkDatetime 2024 3 10 9 30 0) 7%N 8%N
                 (PostRaises (mkExn ConnectError (py "unreachable")))))
    as (Hc & _ & _ & Hp); cbn [now year month day]; try lia.
  split; [exact Hc | exact Hp].
Defined.

(* ===================================================================== *)
(** ** The greeting *)
(* ===================================================================== *)

Section Greeting.

Variable process : processors.
Hypothesis forward : forwards_speech process.
Hypothesis speak : synthesizes_speech process.
Hypothesis infer : only_llm_infers process.

(** Past the LLM service nothing infers. *)
Lemma no_inference_downstream stages f :
  ~ In LLM stages -> ~ In Inference (push process stages f).
Proof.
  revert f. induction stages as [|s rest IH]; intros f Hs; [easy |].
  cbn [push]. destruct (process s f) as [out acts] eqn:E.
  rewrite in_app_iff, in_flat_map. intros [Ha | (g & _ & Hg)].
  - apply (infer s f); [intros ->; apply Hs; now left |].
    now rewrite E.
  - apply (IH g); [intros H; apply Hs; now right | exact Hg].
Qed.

(** A processor that forwards speech is transparent to it. *)
Lemma push_forwarded s rest text :
  In s [TransportInput; STT; ContextUser; LLM] ->
  push process (s :: rest) (TTSSpeakFrame text) =
  push process rest (TTSSpeakFrame text).
Proof.
  intros Hs. cbn [push]. rewrite (forward s text Hs).
  cbn [flat_map app]. apply app_nil_r.
Qed.

(** What the pipeline of [run_bot] does with a [TTSSpeakFrame]. *)
Lemma push_speech text :
  exists rest,
    push process
      [TransportInput; STT; ContextUser; LLM; TTS; TransportOutput;
       ContextAssistant] (TTSSpeakFrame text) = Synthesis text :: rest /\
    ~ In Inference rest.
Proof.
  destruct (speak text) as [out Hout].
  exists (flat_map (push process [TransportOutput; ContextAssistant]) out).
  split.
  - rewrite !push_forwarded by (cbn [In]; tauto).
    cbn [push]. rewrite Hout. reflexivity.
  - rewrite in_flat_map. intros (g & _ & Hg).
    apply (no_inference_downstream [TransportOutput; ContextAssistant] g);
      [cbn [In]; intuition discriminate | exact Hg].
Qed.

End Greeting.

(** C5.  On the client-connected event the handler queues one frame on the
    pipeline task, a [TTSSpeakFrame] with the welcome text.  With
    processors that pass such a frame on untouched up to the synthesizer,
    a synthesizer that speaks it, and no inference outside the LLM
    service, the first thing the pipeline does on a connection is to
    synthesize the welcome text, and it runs no inference for it. *)
Theorem greeting_is_spoken_without_inference
    (isprintable : N -> bool) (token : pystr) (clock : datetime)
    (process : processors) :
  forwards_speech process ->
  synthesizes_speech process ->
  only_llm_infers process ->
  let bot := run_bot isprintable token clock in
  queued (trace (on_client_connected bot)) = [TTSSpeakFrame WELCOME_MESSAGE] /\
  exists rest,
    run_queued process (pipeline bot) (trace (on_client_connected bot)) =
      Synthesis WELCOME_MESSAGE :: rest /\
    ~ In Inference rest.
Proof.
  intros forward speak infer. cbv zeta. split; [reflexivity |].
  destruct (push_speech process forward speak infer WELCOME_MESSAGE)
    as (rest & Hpush & Hrest).
  exists rest. split; [| exact Hrest].
  unfold run_queued.
  change (queued (trace (on_client_connected
                           (run_bot isprintable token clock))))
    with [TTSSpeakFrame WELCOME_MESSAGE].
  cbn [flat_map pipeline run_bot]. rewrite app_nil_r. exact Hpush.
Qed.

Lemma example_processors_forward : forwards_speech example_processors.
Proof.
  intros s text Hs. cbn [In] in Hs.
  destruct Hs as [<- | [<- | [<- | [<- | []]]]]; reflexivity.
Qed.

Lemma example_processors_speak : synthesizes_speech example_processors.
Proof. intros text. eexists. reflexivity. Qed.

Lemma example_processors_infer : only_llm_infers example_processors.
Proof.
  intros s f Hs.
  destruct s; try contradiction; destruct f as [text | | cls]; cbn;
    try destruct (String.eqb cls _); cbn; intuition discriminate.
Qed.

(** With the example processors the greeting is synthesized and played,
    and nothing else happens. *)
Lemma greeting_is_spoken_without_inference_witness :
  let bot := run_bot latin1_isprintable example_token example_clock in
  forwards_speech example_processors /\
  synthesizes_speech example_processors /\
  only_llm_infers example_processors /\
  run_queued example_processors (pipeline bot)
    (trace (on_client_connected bot)) =
    [Synthesis WELCOME_MESSAGE; AudioOut] /\
  (queued (trace (on_client_connected bot)) = [TTSSpeakFrame WELCOME_MESSAGE] /\
   exists rest,
     run_queued example_processors (pipeline bot)
       (trace (on_client_connected bot)) = Synthesis WELCOME_MESSAGE :: rest /\
     ~ In Inference rest).
Proof.
  cbv zeta.
  split; [exact example_processors_forward |].
  split; [exact example_processors_speak |].
  split; [exact example_processors_infer |].
  split; [reflexivity |].
  exact (greeting_is_spoken_without_inference latin1_isprintable example_token
           example_clock example_processors example_processors_forward
           example_processors_speak example_processors_infer).
Defined.

(* ===================================================================== *)
(** ** Malformed responses, escapes and what the callback can be given *)
(* ===================================================================== *)

Section Edges.

Variable isprintable : N -> bool.
Variable VAPI_AUTH_TOKEN : pystr.

Local Abbreviation call := (call_vapi_webhook isprintable VAPI_AUTH_TOKEN).
Local Abbreviation select := (select_result isprintable).

(** With a "results" entry, the inspection starts from its length. *)
Lemma select_with_results d rs :
  dict_get (py "results") d = Some rs ->
  select (JDict d) =
  (n <- py_len rs ;;
   if (0 <? n)%nat then
     first <- py_item0 rs ;;
     tool_result <- py_get first (py "result") (str "") ;;
     ret (if truthy tool_result then tool_result else JStr (dumps first))
   else
     match dict_get (py "result") d with
     | Some r => ret r
     | None => ret (JStr (dumps (JDict d)))
     end)%py.
Proof. intros H. unfold select_result. rewrite H. reflexivity. Qed.

(** X1.  A mapping whose "results" entry is [None], a boolean or a number
    makes [len] raise: the call returns the text of that [TypeError],
    whether or not the mapping also has a "result" field. *)
Theorem results_without_length_is_an_error fn a w d rs :
  answers w (JDict d) ->
  dict_get (py "results") d = Some rs ->
  has_no_len rs = true ->
  result (call fn a w) =
    Returned (JStr (py "Error calling travel service: object of type '" ++
                    type_name rs ++ py "' has no len()")).
Proof.
  intros Hnet Hrs Hlen. rewrite call_result, Hnet.
  rewrite (select_with_results _ _ Hrs).
  destruct rs; try discriminate; reflexivity.
Qed.

(** X2.  A mapping whose "results" entry is a non-empty list, or a
    non-empty string, with a first item that is not a mapping makes
    [.get] raise: the call returns the text of that [AttributeError],
    naming the type of the item. *)
Theorem first_result_not_a_mapping_is_an_error fn a w d rs x :
  answers w (JDict d) ->
  dict_get (py "results") d = Some rs ->
  first_item rs = Some x ->
  isinstance_dict x = false ->
  result (call fn a w) =
    Returned (JStr (py "Error calling travel service: '" ++ type_name x ++
                    py "' object has no attribute 'get'")).
Proof.
  intros Hnet Hrs Hx Hdict. rewrite call_result, Hnet.
  rewrite (select_with_results _ _ Hrs).
  destruct rs as [| | | |[|c s]|[|y l]|]; try discriminate;
    cbn [first_item] in Hx; injection Hx as Hx; subst x; [reflexivity |].
  destruct y; try discriminate; reflexivity.
Qed.

(** X3.  A mapping whose "results" entry is a non-empty mapping is
    indexed with the integer 0, which is none of its keys: the call
    returns the text of that [KeyError]. *)
Theorem results_mapping_is_an_error fn a w d kv rest :
  answers w (JDict d) ->
  dict_get (py "results") d = Some (JDict (kv :: rest)) ->
  result (call fn a w) =
    Returned (JStr (py "Error calling travel service: 0")).
Proof.
  intros Hnet Hrs. rewrite call_result, Hnet.
  rewrite (select_with_results _ _ Hrs). reflexivity.
Qed.

Lemma dumps_dict_nonempty f : dumps (JDict f) <> [].
Proof. cbn [dumps]. discriminate. Qed.

(** X4.  What the call returns from a "results" list that starts with a
    mapping is never false in Python's sense: it is the "result" field of
    that mapping when the field is true, and otherwise the JSON text of
    the mapping, which is not empty. *)
Theorem results_branch_returns_a_true_value fn a w d f l :
  answers w (JDict d) ->
  dict_get (py "results") d = Some (JList (JDict f :: l)) ->
  exists v,
    result (call fn a w) = Returned v /\
    truthy v = true /\
    (dict_get (py "result") f = Some v \/ v = JStr (dumps (JDict f))).
Proof.
  intros Hnet Hrs. rewrite call_result, Hnet.
  rewrite (select_with_results _ _ Hrs).
  cbn -[dict_get py dumps truthy].
  destruct (dict_get (py "result") f) as [r|] eqn:Hr.
  - destruct (truthy r) eqn:Ht.
    + exists r. auto.
    + eexists. split; [reflexivity |]. split; [| now right].
      cbn [truthy]. destruct (dumps (JDict f)) eqn:E; [| reflexivity].
      now apply dumps_dict_nonempty in E.
  - eexists. split; [reflexivity |]. split; [| now right].
    cbn [truthy]. destruct (dumps (JDict f)) eqn:E; [| reflexivity].
    now apply dumps_dict_nonempty in E.
Qed.

(** The call and the exchange raise together. *)
Lemma call_raises_with_exchange fn a w e :
  result (call fn a w) = Raised e <->
  exchange_outcome (net w) = Raised e /\ is_Exception e = false.
Proof.
  rewrite call_result. split.
  - destruct (exchange_outcome (net w)) as [v | e0].
    + destruct (result (select v)) as [r | e1] eqn:E; [discriminate |].
      rewrite (select_raises_Exception _ _ _ E). discriminate.
    + destruct (is_Exception e0) eqn:E0; [discriminate |].
      intros [= <-]. auto.
  - intros [-> ->]. reflexivity.
Qed.

(** X5.  The call leaves with an exception exactly when the exchange
    raised one that is not an [Exception], and then with that one; what
    the inspection of the response raises never leaves the call. *)
Theorem call_raises_iff_base_exception fn a w e :
  result (call fn a w) = Raised e <->
  exchange_outcome (net w) = Raised e /\ is_Exception e = false.
Proof. apply call_raises_with_exchange. Qed.

(** X6.  A value the call returns that is not text is a "result" field
    of the response, taken verbatim: that of the mapping, or that of the
    first mapping in its "results" list. *)
Theorem non_text_return_is_a_verbatim_field fn a w v :
  result (call fn a w) = Returned v ->
  is_text v = false ->
  exists d,
    answers w (JDict d) /\
    (dict_get (py "result") d = Some v \/
     exists f l,
       dict_get (py "results") d = Some (JList (JDict f :: l)) /\
       dict_get (py "result") f = Some v).
Proof.
  rewrite call_result. unfold answers.
  destruct (exchange_outcome (net w)) as [r | e];
    [| destruct (is_Exception e); [intros [= <-] |]; discriminate].
  destruct (result (select r)) as [x | e] eqn:E;
    [| destruct (is_Exception e); [intros [= <-] |]; discriminate].
  intros [= ->] Hv.
  destruct r as [| | | | | |d]; try (injection E as <-; discriminate).
  exists d. split; [reflexivity |].
  assert (Hother :
    result (match dict_get (py "result") d with
            | Some r => ret r
            | None => ret (JStr (dumps (JDict d)))
            end) = Returned v ->
    dict_get (py "result") d = Some v).
  { destruct (dict_get (py "result") d) as [r|]; intros [= <-];
      [reflexivity | discriminate]. }
  destruct (dict_get (py "results") d) as [rs|] eqn:Hrs.
  - rewrite (select_with_results _ _ Hrs) in E.
    destruct rs as [| | | |[|c s]|[|y l]|[|kv d']];
      rewrite result_bind in E;
      cbn [py_len ret raise result snd length Nat.ltb Nat.leb] in E;
      try discriminate; try (left; exact (Hother E)).
    destruct y as [| | | | | |f]; try discriminate.
    right. exists f, l. split; [reflexivity |].
    cbn -[dict_get py dumps truthy] in E.
    destruct (dict_get (py "result") f) as [r|];
      [destruct (truthy r) |]; injection E as <-;
      try discriminate; reflexivity.
  - left. apply Hother. unfold select_result in E. now rewrite Hrs in E.
Qed.

End Edges.

(** [{"results": null, "result": "x"}]: the "result" field is not used. *)
Lemma results_without_length_is_an_error_witness :
  let d := [(py "results", JNone); (py "result", str "x")] in
  result (call_vapi_webhook latin1_isprintable example_token
            (py "search_flights") (Some []) (answering (JDict d))) =
  Returned (str "Error calling travel service: object of type 'NoneType' has no len()").
Proof.
  exact (results_without_length_is_an_error latin1_isprintable example_token
           (py "search_flights") (Some [])
           (answering (JDict [(py "results", JNone); (py "result", str "x")]))
           [(py "results", JNone); (py "result", str "x")] JNone
           eq_refl eq_refl eq_refl).
Defined.

(** [{"results": ["abc"]}] *)
Lemma first_result_not_a_mapping_is_an_error_witness :
  let d := [(py "results", JList [str "abc"])] in
  result (call_vapi_webhook latin1_isprintable example_token
            (py "search_hotels") (Some []) (answering (JDict d))) =
  Returned (str "Error calling travel service: 'str' object has no attribute 'get'").
Proof.
  exact (first_result_not_a_mapping_is_an_error latin1_isprintable
           example_token (py "search_hotels") (Some [])
           (answering (JDict [(py "results", JList [str "abc"])]))
           [(py "results", JList [str "abc"])] (JList [str "abc"])
           (str "abc") eq_refl eq_refl eq_refl eq_refl).
Defined.

(** [{"results": {"a": 1}}] *)
Lemma results_mapping_is_an_error_witness :
  let d := [(py "results", JDict [(py "a", JInt 1)])] in
  result (call_vapi_webhook latin1_isprintable example_token
            (py "book_flight") (Some []) (answering (JDict d))) =
  Returned (str "Error calling travel service: 0").
Proof.
  exact (results_mapping_is_an_error latin1_isprintable example_token
           (py "book_flight") (Some [])
           (answering (JDict [(py "results", JDict [(py "a", JInt 1)])]))
           [(py "results", JDict [(py "a", JInt 1)])] (py "a", JInt 1) []
           eq_refl eq_refl).
Defined.

(** [{"results": [{"result": ""}]}]: the empty field is replaced by the
    JSON text of the element. *)
Lemma results_branch_returns_a_true_value_witness :
  let d := [(py "results", JList [JDict [(py "result", str "")]])] in
  exists v,
    result (call_vapi_webhook latin1_isprintable example_token
              (py "book_hotel") (Some []) (answering (JDict d))) = Returned v /\
    truthy v = true /\
    (dict_get (py "result") [(py "result", str "")] = Some v \/
     v = JStr (dumps (JDict [(py "result", str "")]))).
Proof.
  exact (results_branch_returns_a_true_value latin1_isprintable example_token
           (py "book_hotel") (Some [])
           (answering
              (JDict [(py "results", JList [JDict [(py "result", str "")]])]))
           [(py "results", JList [JDict [(py "result", str "")]])]
           [(py "result", str "")] [] eq_refl eq_refl).
Defined.

(** [{"result": 5}]: the callback would be given the number. *)
Lemma non_text_return_is_a_verbatim_field_witness :
  let w := answering (JDict [(py "result", JInt 5)]) in
  result (call_vapi_webhook latin1_isprintable example_token
            (py "book_hotel") (Some []) w) = Returned (JInt 5) /\
  exists d,
    answers w (JDict d) /\
    (dict_get (py "result") d = Some (JInt 5) \/
     exists f l,
       dict_get (py "results") d = Some (JList (JDict f :: l)) /\
       dict_get (py "result") f = Some (JInt 5)).
Proof.
  cbv zeta. split; [reflexivity |].
  exact (non_text_return_is_a_verbatim_field latin1_isprintable example_token
           (py "book_hotel") (Some [])
           (answering (JDict [(py "result", JInt 5)])) (JInt 5)
           eq_refl eq_refl).
Defined.

(* ===================================================================== *)
(** ** Handlers under cancellation, and what they send *)
(* ===================================================================== *)

Section Delivery.

Variable isprintable : N -> bool.
Variable VAPI_AUTH_TOKEN : pystr.

Local Abbreviation call := (call_vapi_webhook isprintable VAPI_AUTH_TOKEN).
Local Abbreviation bot := (run_bot isprintable VAPI_AUTH_TOKEN).

(** Each registered handler other than that of get_current_date logs one
    line, awaits the webhook under the name it is registered with, and
    hands the value to the callback. *)
Lemma webhook_handler_shape clock r params w :
  In r (functions (bot clock)) ->
  function_name r <> py "get_current_date" ->
  exists line,
    handler r params w =
    (logger_info line ;;
     result <- call (function_name r) (Some (arguments params)) w ;;
     result_callback result)%py.
Proof.
  intros Hin Hname. rewrite run_bot_functions in Hin. cbn [In] in Hin.
  destruct Hin as [<- | [<- | [<- | [<- | [<- | []]]]]];
    [now contradiction Hname | | | |]; eexists; reflexivity.
Qed.

(** The one request of a call, in the specification's shape. *)
Lemma call_sends_one_request fn a w :
  posts (trace (call fn a w)) =
  [spec_request VAPI_AUTH_TOKEN
     (fn ++ py "-" ++ hex_fixed 8 (uuid_1 w / 2 ^ 96)%N)
     fn
     (match a with Some d => d | None => [] end)
     (py "call-" ++ hex_fixed 8 (uuid_2 w / 2 ^ 96)%N)].
Proof.
  rewrite call_posts.
  unfold webhook_request, payload_of, spec_request, tool_call_id_of,
    call_id_of.
  now rewrite !uuid_hex_prefix, arguments_or_empty_spec.
Qed.

(** X7.  When the exchange raises what is not an [Exception] (the task
    is cancelled while the request is awaited), a webhook handler leaves
    with that exception: the result callback is not invoked and nothing
    is logged as an error. *)
Theorem cancelled_handler_makes_no_callback clock r params w e :
  In r (functions (bot clock)) ->
  function_name r <> py "get_current_date" ->
  exchange_outcome (net w) = Raised e ->
  is_Exception e = false ->
  callbacks (trace (handler r params w)) = [] /\
  error_logs (trace (handler r params w)) = [] /\
  result (handler r params w) = Raised e.
Proof.
  intros Hin Hname Hnet He.
  destruct (webhook_handler_shape clock r params w Hin Hname) as [line ->].
  destruct (webhook_handler_run isprintable VAPI_AUTH_TOKEN line
              (function_name r) (Some (arguments params)) w)
    as (Hc & Hr & _).
  assert (Hcall : result (call (function_name r) (Some (arguments params)) w)
                  = Raised e)
    by (apply call_raises_with_exchange; auto).
  rewrite Hc, Hr, Hcall. split; [reflexivity | split; [| reflexivity]].
  unfold logger_info, result_callback. run_coroutine.
  rewrite Hcall, call_trace, Hnet, He. reflexivity.
Qed.

(** X8.  A webhook handler sends one request, under the name it is
    registered with and with the arguments of the call, and gives the
    callback the value the dispatcher returned, unchanged. *)
Theorem handler_sends_under_its_registered_name clock r params w :
  In r (functions (bot clock)) ->
  function_name r <> py "get_current_date" ->
  posts (trace (handler r params w)) =
    [spec_request VAPI_AUTH_TOKEN
       (function_name r ++ py "-" ++ hex_fixed 8 (uuid_1 w / 2 ^ 96)%N)
       (function_name r)
       (arguments params)
       (py "call-" ++ hex_fixed 8 (uuid_2 w / 2 ^ 96)%N)] /\
  callbacks (trace (handler r params w)) =
    match result (call (function_name r) (Some (arguments params)) w) with
    | Returned v => [v]
    | Raised _ => []
    end.
Proof.
  intros Hin Hname.
  destruct (webhook_handler_shape clock r params w Hin Hname) as [line ->].
  destruct (webhook_handler_run isprintable VAPI_AUTH_TOKEN line
              (function_name r) (Some (arguments params)) w)
    as (Hc & _ & Hp).
  rewrite Hc, Hp, call_sends_one_request. split; reflexivity.
Qed.

(** X9.  The names registered on the LLM service are the names of the
    tool table, in the same order: every tool the model is told about
    has a handler, and every handler is one the model is told about. *)
Theorem registry_matches_tool_table clock :
  map (fun r => Some (JStr (function_name r))) (functions (bot clock)) =
  map tool_name TRAVEL_TOOLS.
Proof. reflexivity. Qed.

(** X10.  The line that logs a response holds at most 500 characters of
    it, however long the response is. *)
Theorem response_log_is_truncated fn a w msg :
  In (Log INFO msg) (trace (call fn a w)) ->
  startswith (py "[TOOL] Response: ") msg = true ->
  (length msg <= 17 + 500)%nat.
Proof.
  rewrite call_trace. cbn [In]. intros [H | [H | H]] Hs.
  - injection H as H. subst msg. cbn in Hs. discriminate.
  - discriminate.
  - destruct (exchange_outcome (net w)) as [v | e].
    + cbn [In] in H. destruct H as [H | H].
      * replace msg with (py "[TOOL] Response: " ++ firstn 500 (dumps v))
          by congruence.
        rewrite length_app, length_firstn.
        change (length (py "[TOOL] Response: ")) with 17%nat. lia.
      * destruct (result (select_result isprintable v));
          [contradiction |].
        cbn [In] in H. destruct H as [H | []]. discriminate.
    + destruct (is_Exception e); [| contradiction].
      cbn [In] in H. destruct H as [H | []]. discriminate.
Qed.

(** X11.  An ERROR line is logged at most once per call, and only for an
    exception the call turned into its returned text: the line and the
    returned text carry the same message. *)
Theorem error_line_matches_returned_text fn a w msg :
  In msg (error_logs (trace (call fn a w))) ->
  exists e,
    error_logs (trace (call fn a w)) = [py "[TOOL] Error: " ++ exn_text e] /\
    msg = py "[TOOL] Error: " ++ exn_text e /\
    result (call fn a w) =
      Returned (JStr (py "Error calling travel service: " ++ exn_text e)).
Proof.
  rewrite call_trace, call_result. cbn [error_logs flat_map app].
  destruct (exchange_outcome (net w)) as [v | e].
  - cbn [error_logs flat_map app].
    destruct (result (select_result isprintable v)) as [r | e] eqn:E;
      [intros [] |].
    rewrite (select_raises_Exception _ _ _ E).
    cbn [flat_map app In]. intros [<- | []]. now exists e.
  - destruct (is_Exception e); [| intros []].
    cbn [flat_map app In]. intros [<- | []]. now exists e.
Qed.

End Delivery.

(** A search that is cancelled while it awaits the webhook. *)
Lemma cancelled_handler_makes_no_callback_witness :
  let r := mkRegistration (py "search_hotels")
             (handle_search_hotels latin1_isprintable example_token)
             (Some false) in
  let params := mkParams [(py "destination", str "Porto")] in
  callbacks (trace (handler r params cancelled)) = [] /\
  error_logs (trace (handler r params cancelled)) = [] /\
  result (handler r params cancelled) = Raised (mkExn CancelledError (py "")).
Proof.
  cbv zeta.
  apply (cancelled_handler_makes_no_callback latin1_isprintable example_token
           example_clock
           (mkRegistration (py "search_hotels")
              (handle_search_hotels latin1_isprintable example_token)
              (Some false))
           (mkParams [(py "destination", str "Porto")]) cancelled
           (mkExn CancelledError (py ""))).
  - right; right; right; left; reflexivity.
  - discriminate.
  - reflexivity.
  - reflexivity.
Defined.

(** A booking sent for a hotel. *)
Lemma handler_sends_under_its_registered_name_witness :
  let r := mkRegistration (py "book_hotel")
             (handle_book_hotel latin1_isprintable example_token)
             (Some false) in
  let params := mkParams [(py "city", str "Porto")] in
  let w := answering (JDict [(py "result", str "booked")]) in
  posts (trace (handler r params w)) =
    [spec_request example_token (py "book_hotel-1b4e28ba") (py "book_hotel")
       [(py "city", str "Porto")] (py "call-9c5b94b1")] /\
  callbacks (trace (handler r params w)) = [str "booked"].
Proof.
  cbv zeta.
  apply (handler_sends_under_its_registered_name latin1_isprintable
           example_token example_clock
           (mkRegistration (py "book_hotel")
              (handle_book_hotel latin1_isprintable example_token)
              (Some false))
           (mkParams [(py "city", str "Porto")])
           (answering (JDict [(py "result", str "booked")]))).
  - right; right; right; right; left; reflexivity.
  - discriminate.
Defined.

(** A response of 600 characters is logged by its first 500. *)
Lemma response_log_is_truncated_witness :
  let v := JStr (repeat 97%N 600) in
  let msg := py "[TOOL] Response: " ++ firstn 500 (dumps v) in
  In (Log INFO msg)
     (trace (call_vapi_webhook latin1_isprintable example_token
               (py "search_flights") (Some []) (answering v))) /\
  (length msg <= 17 + 500)%nat.
Proof.
  cbv zeta.
  assert (Hin : In (Log INFO (py "[TOOL] Response: " ++
                              firstn 500 (dumps (JStr (repeat 97%N 600)))))
                  (trace (call_vapi_webhook latin1_isprintable example_token
                            (py "search_flights") (Some [])
                            (answering (JStr (repeat 97%N 600))))))
    by (right; right; left; reflexivity).
  split; [exact Hin |].
  exact (response_log_is_truncated latin1_isprintable example_token
           (py "search_flights") (Some []) (answering (JStr (repeat 97%N 600)))
           _ Hin eq_refl).
Defined.

(** The error line of a call that timed out. *)
Lemma error_line_matches_returned_text_witness :
  let call := call_vapi_webhook latin1_isprintable example_token
                (py "book_flight") (Some []) timing_out in
  exists e,
    error_logs (trace call) = [py "[TOOL] Error: " ++ exn_text e] /\
    py "[TOOL] Error: The read operation timed out" =
      py "[TOOL] Error: " ++ exn_text e /\
    result call =
      Returned (JStr (py "Error calling travel service: " ++ exn_text e)).
Proof.
  cbv zeta.
  apply (error_line_matches_returned_text latin1_isprintable example_token
           (py "book_flight") (Some []) timing_out
           (py "[TOOL] Error: The read operation timed out")).
  left. reflexivity.
Defined.

(* ===================================================================== *)
(** ** The correlation identifiers *)
(* ===================================================================== *)

Lemma hex_value_digit d : (d < 16)%N -> hex_value (hex_digit d) = d.
Proof.
  intros H. unfold hex_value, hex_digit.
  destruct (N.ltb_spec d 10).
  - replace (48 + d <? 58)%N with true by (symmetry; apply N.ltb_lt; lia).
    lia.
  - replace (87 + d <? 58)%N with false by (symmetry; apply N.ltb_ge; lia).
    lia.
Qed.

Lemma hex_digit_is_hex d : (d < 16)%N -> is_hex_digit (hex_digit d) = true.
Proof.
  intros H. unfold is_hex_digit, hex_digit.
  destruct (N.ltb_spec d 10).
  - replace (48 <=? 48 + d)%N with true by (symmetry; apply N.leb_le; lia).
    replace (48 + d <=? 57)%N with true by (symmetry; apply N.leb_le; lia).
    reflexivity.
  - replace (97 <=? 87 + d)%N with true by (symmetry; apply N.leb_le; lia).
    replace (87 + d <=? 102)%N with true by (symmetry; apply N.leb_le; lia).
    apply orb_true_r.
Qed.

Lemma hex_fixed_digits w n : forallb is_hex_digit (hex_fixed w n) = true.
Proof.
  revert n. induction w as [|w IH]; intros n; [reflexivity |].
  cbn [hex_fixed]. rewrite forallb_app, IH. cbn [forallb].
  rewrite hex_digit_is_hex by (apply N.mod_lt; discriminate). reflexivity.
Qed.

(** Reading back what [hex_fixed] printed gives the digits it kept. *)
Lemma parse_hex_fixed w n :
  parse_hex (hex_fixed w n) = (n mod 16 ^ N.of_nat w)%N.
Proof.
  revert n. induction w as [|w IH]; intros n.
  - cbn. now rewrite N.mod_1_r.
  - cbn [hex_fixed]. unfold parse_hex. rewrite fold_left_app.
    cbn [fold_left]. fold (parse_hex (hex_fixed w (n / 16))).
    rewrite IH, hex_value_digit by (apply N.mod_lt; discriminate).
    rewrite Nat2N.inj_succ, N.pow_succ_r', N.Div0.mod_mul_r. lia.
Qed.

Lemma uuid_prefix_bound u : (u < 2 ^ 128)%N -> (u / 2 ^ 96 < 16 ^ 8)%N.
Proof.
  intros H. apply N.Div0.div_lt_upper_bound.
  change (2 ^ 96 * 16 ^ 8)%N with (2 ^ 128)%N. exact H.
Qed.

Lemma hex8_injective u u' :
  (u < 2 ^ 128)%N -> (u' < 2 ^ 128)%N ->
  hex_fixed 8 (u / 2 ^ 96)%N = hex_fixed 8 (u' / 2 ^ 96)%N ->
  (u / 2 ^ 96 = u' / 2 ^ 96)%N.
Proof.
  intros Hu Hu' E. apply (f_equal parse_hex) in E.
  rewrite !parse_hex_fixed in E.
  change (N.of_nat 8) with 8%N in E.
  rewrite !N.mod_small in E by now apply uuid_prefix_bound.
  exact E.
Qed.

(** X12.  Both identifiers of a call end in eight lower-case hexadecimal
    digits: the call identifier is "call-" and the digits, so 13
    characters, and the tool-call identifier is the function name, a
    hyphen and the digits. *)
Theorem identifiers_have_a_fixed_format (fn : pystr) (u : uuid) :
  exists h,
    call_id_of u = py "call-" ++ h /\
    tool_call_id_of fn u = fn ++ py "-" ++ h /\
    length h = 8%nat /\
    forallb is_hex_digit h = true /\
    length (call_id_of u) = 13%nat.
Proof.
  exists (hex_fixed 8 (u / 2 ^ 96)%N).
  unfold call_id_of, tool_call_id_of. rewrite uuid_hex_prefix.
  split; [reflexivity | split; [reflexivity |]].
  split; [apply length_hex_fixed |].
  split; [apply hex_fixed_digits |].
  rewrite length_app, length_hex_fixed. reflexivity.
Qed.

(** X13.  Two UUID draws give the same call identifier, and for one
    function name the same tool-call identifier, exactly when they agree
    on their leading 32 bits. *)
Theorem identifiers_agree_iff_prefixes_agree (fn : pystr) (u u' : uuid) :
  (u < 2 ^ 128)%N ->
  (u' < 2 ^ 128)%N ->
  (call_id_of u = call_id_of u' <-> (u / 2 ^ 96 = u' / 2 ^ 96)%N) /\
  (tool_call_id_of fn u = tool_call_id_of fn u' <->
   (u / 2 ^ 96 = u' / 2 ^ 96)%N).
Proof.
  intros Hu Hu'. unfold call_id_of, tool_call_id_of.
  rewrite !uuid_hex_prefix. split; split.
  - intros E. apply app_inv_head in E. now apply hex8_injective.
  - now intros ->.
  - intros E. apply app_inv_head in E. apply app_inv_head in E.
    now apply hex8_injective.
  - now intros ->.
Qed.

(** Two version-4 UUIDs that differ in their leading bits. *)
Lemma identifiers_agree_iff_prefixes_agree_witness :
  let u := 0x1b4e28ba2fa1411d883f00913c7a4f01%N in
  let u' := 0x9c5b94b1a35f4c7ab1d2e0f3a4b5c6d7%N in
  (u < 2 ^ 128)%N /\ (u' < 2 ^ 128)%N /\
  call_id_of u <> call_id_of u'.
Proof.
  cbv zeta. split; [reflexivity | split; [reflexivity |]].
  intros E.
  apply (proj1 (proj1 (identifiers_agree_iff_prefixes_agree
                         (py "book_flight")
                         0x1b4e28ba2fa1411d883f00913c7a4f01%N
                         0x9c5b94b1a35f4c7ab1d2e0f3a4b5c6d7%N
                         eq_refl eq_refl))) in E.
  discriminate E.
Defined.

(* ===================================================================== *)
(** ** The date in the system prompt *)
(* ===================================================================== *)

(** X14.  The system prompt of a session states the date in the very text
    the get_current_date tool gives for the same clock. *)
Theorem prompt_states_the_tool_date params w :
  exists d before after,
    callbacks (trace (handle_get_current_date params w)) = [JStr d] /\
    get_system_prompt (now w) =
      before ++ py "Today's date is " ++ d ++ py "." ++ newline :: after.
Proof.
  exists (strftime_Ymd (now w)).
  exists (py "You are Travel Buddy, a friendly and helpful travel assistant in a voice call." ++ [newline]).
  eexists. split; [reflexivity |].
  unfold get_system_prompt. cbv zeta. cbn [join].
  rewrite <- !app_assoc. cbn [app]. reflexivity.
Qed.

(* ===================================================================== *)
(** ** One result per call, interruption and cancellation *)
(* ===================================================================== *)

(** A search whose task is cancelled while it awaits the webhook: the
    [CancelledError] is not an [Exception], it passes the [except] of the
    dispatcher and leaves the handler before the callback.  So it is not
    every invocation of a handler that invokes the callback once. *)
Lemma cancelled_search_makes_no_callback :
  let bot := run_bot latin1_isprintable example_token example_clock in
  let r := mkRegistration (py "search_flights")
             (handle_search_flights latin1_isprintable example_token)
             (Some false) in
  let params := mkParams [(py "origin", str "LIS")] in
  In r (functions bot) /\
  callbacks (trace (handler r params cancelled)) = [] /\
  result (handler r params cancelled) =
    Raised (mkExn CancelledError (py "")) /\
  ~ (forall r params w,
       In r (functions bot) ->
       length (callbacks (trace (handler r params w))) = 1%nat).
Proof.
  cbv zeta.
  assert (Hin : In (mkRegistration (py "search_flights")
                      (handle_search_flights latin1_isprintable example_token)
                      (Some false))
                  (functions
                     (run_bot latin1_isprintable example_token example_clock)))
    by (right; left; reflexivity).
  split; [exact Hin |].
  split; [reflexivity |].
  split; [reflexivity |].
  intros H.
  specialize (H _ (mkParams [(py "origin", str "LIS")]) cancelled Hin).
  discriminate H.
Qed.

(** C6 (amended).  Whenever the awaited webhook exchange answers or fails
    with an [Exception] (the success path and the error path), each of
    the five registered handlers invokes the result callback exactly once
    and returns; and it does so as well when the parent turn is
    interrupted, under the framework's contract that an interruption
    leaves alone a call registered with [cancel_on_interruption=False]:
    the four webhook handlers are registered so, and the handler of
    get_current_date awaits nothing before its callback. *)
Theorem handlers_call_back_once_when_interrupted
    (isprintable : N -> bool) (token : pystr)
    (interrupt : registration -> world -> world)
    (clock : datetime) (r : registration) (params : FunctionCallParams)
    (w : world) :
  spares_non_cancellable interrupt ->
  In r (functions (run_bot isprintable token clock)) ->
  (forall e, exchange_outcome (net w) = Raised e -> is_Exception e = true) ->
  ((exists v, callbacks (trace (handler r params w)) = [v]) /\
   result (handler r params w) = Returned tt) /\
  ((exists v, callbacks (trace (handler r params (interrupt r w))) = [v]) /\
   result (handler r params (interrupt r w)) = Returned tt).
Proof.
  intros Hspare Hin Hexn.
  pose proof (each_handler_calls_back_once isprintable token clock r params w
                Hin Hexn) as Hw.
  split; [exact Hw |].
  pose proof Hin as Hin'. rewrite run_bot_functions in Hin'. cbn [In] in Hin'.
  destruct Hin' as [<- | [<- | [<- | [<- | [<- | []]]]]];
    try (rewrite Hspare by reflexivity; exact Hw).
  cbn [handler]. split; [eexists |]; reflexivity.
Qed.

(** A search that times out, and a date asked for, both in a turn that is
    interrupted by an interruption that cancels all it may. *)
Lemma handlers_call_back_once_when_interrupted_witness :
  let bot := run_bot latin1_isprintable example_token example_clock in
  let search := mkRegistration (py "search_flights")
                  (handle_search_flights latin1_isprintable example_token)
                  (Some false) in
  let today := mkRegistration (py "get_current_date")
                 handle_get_current_date None in
  let params := mkParams [] in
  spares_non_cancellable example_interrupt /\
  callbacks (trace (handler search params
                      (example_interrupt search timing_out))) =
    [str "Error calling travel service: The read operation timed out"] /\
  callbacks (trace (handler today params
                      (example_interrupt today timing_out))) =
    [str "2024-03-10"] /\
  ((exists v, callbacks (trace (handler today params
                                  (example_interrupt today timing_out))) = [v])
   /\ result (handler today params (example_interrupt today timing_out))
      = Returned tt).
Proof.
  cbv zeta.
  assert (Hspare : spares_non_cancellable example_interrupt).
  { intros r w Hr. unfold example_interrupt. now rewrite Hr. }
  split; [exact Hspare |].
  split; [reflexivity |].
  split; [reflexivity |].
  refine (proj2 (handlers_call_back_once_when_interrupted
                   latin1_isprintable example_token example_interrupt
                   example_clock
                   (mkRegistration (py "get_current_date")
                      handle_get_current_date None)
                   (mkParams []) timing_out Hspare _ _)).
  - left. reflexivity.
  - intros e [= <-]. reflexivity.
Defined.

(* ===================================================================== *)
(** ** The dispatcher's timeout and the framework's *)
(* ===================================================================== *)


